(** * pykv dashboard client: [static/js/app.js]

    A shallow embedding of the browser script that drives the pykv
    key-value store over HTTP, and the properties of its operations.

    Conventions of the embedding.
    - A JavaScript string is a Rocq [string] holding its UTF-8 bytes.
    - A JavaScript number is an integer [Z]; the script only meets numbers
      as a TTL and as a key count.  The rounding of integers above 2^53 and
      the exponent notation of very large numbers are outside the model.
    - The page is a record with one optional field per element id the
      script looks up; [None] is [getElementById] returning [null].
    - An [async] function is a term of type [Async]: what it does up to its
      next [await], and a continuation for the awaited value.  The event
      loop keeps the suspended functions and resumes one when the
      environment delivers a response or a response body.  The script
      catches no exception: a rejected [fetch] or [res.json()], or a
      [TypeError], ends the function that meets it and is recorded as an
      uncaught error.
    - The server is the environment: the statements quantify over what it
      answers.
    - A request is recorded as the script makes it: the method and the URL
      text handed to [fetch].  What the browser makes of that text (URL
      parsing, percent-encoding) is outside the model.
    - The lookup field is a text input: assigning its value drops line
      breaks. *)

From Stdlib Require Import String Ascii List ZArith Lia Bool DecimalString.
Import ListNotations.
Local Open Scope string_scope.

(** ** JavaScript strings *)

Module JsString.

Definition bytes (l : list nat) : string :=
  string_of_list_ascii (map ascii_of_nat l).

(** The double quote character, as a one-character string. *)
Definition dq : string := bytes [34].
Definition backslash : string := bytes [92].
Definition newline : string := bytes [10].

(** ECMAScript WhiteSpace and LineTerminator code points, in UTF-8:
    TAB, LF, VT, FF, CR, SP, U+00A0, U+1680, U+2000..U+200A, U+2028,
    U+2029, U+202F, U+205F, U+3000, U+FEFF. *)
Definition whiteSpace : list (list nat) :=
  [ [9]; [10]; [11]; [12]; [13]; [32];
    [194; 160]; [225; 154; 128];
    [226; 128; 128]; [226; 128; 129]; [226; 128; 130]; [226; 128; 131];
    [226; 128; 132]; [226; 128; 133]; [226; 128; 134]; [226; 128; 135];
    [226; 128; 136]; [226; 128; 137]; [226; 128; 138];
    [226; 128; 168]; [226; 128; 169]; [226; 128; 175];
    [226; 129; 159]; [227; 128; 128]; [239; 187; 191] ].

Definition codes (s : string) : list nat :=
  map nat_of_ascii (list_ascii_of_string s).

Fixpoint strip_prefix (p l : list nat) : option (list nat) :=
  match p, l with
  | [], _ => Some l
  | _ :: _, [] => None
  | a :: p', b :: l' => if Nat.eqb a b then strip_prefix p' l' else None
  end.

(** The rest of [l] after one leading sequence of [seqs], if it has one. *)
Fixpoint strip_one (seqs : list (list nat)) (l : list nat) : option (list nat) :=
  match seqs with
  | [] => None
  | p :: seqs' =>
      match strip_prefix p l with
      | Some r => Some r
      | None => strip_one seqs' l
      end
  end.

Fixpoint strip_all (fuel : nat) (seqs : list (list nat)) (l : list nat) : list nat :=
  match fuel with
  | O => l
  | S fuel' =>
      match strip_one seqs l with
      | Some r => strip_all fuel' seqs r
      | None => l
      end
  end.

Definition trimStart_codes (l : list nat) : list nat :=
  strip_all (List.length l) whiteSpace l.

Definition trimEnd_codes (l : list nat) : list nat :=
  rev (strip_all (List.length l) (map (@rev nat) whiteSpace) (rev l)).

Definition trimStart (s : string) : string := bytes (trimStart_codes (codes s)).

(** [String.prototype.trim]. *)
Definition trim (s : string) : string :=
  bytes (trimEnd_codes (trimStart_codes (codes s))).

(** A string is falsy exactly when it is empty. *)
Definition truthy (s : string) : bool :=
  match s with EmptyString => false | String _ _ => true end.

(** *** Numbers *)

Inductive number : Type :=
| NaN
| Int (z : Z).

Definition digit_value (c : nat) : option Z :=
  if ((48 <=? c) && (c <=? 57))%nat then Some (Z.of_nat (c - 48))
  else if ((97 <=? c) && (c <=? 122))%nat then Some (Z.of_nat (c - 97 + 10))
  else if ((65 <=? c) && (c <=? 90))%nat then Some (Z.of_nat (c - 65 + 10))
  else None.

(** The digits of radix [radix] at the front of [l], most significant first. *)
Fixpoint digits_prefix (radix : Z) (l : list nat) : list Z :=
  match l with
  | [] => []
  | c :: l' =>
      match digit_value c with
      | Some d => if (d <? radix)%Z then d :: digits_prefix radix l' else []
      | None => []
      end
  end.

Definition digits_value (radix : Z) (ds : list Z) : Z :=
  fold_left (fun acc d => (acc * radix + d)%Z) ds 0%Z.

(** [parseInt(s)] with no radix argument: leading white space is skipped,
    then an optional sign, then [0x] or [0X] selects radix 16, then the
    longest run of digits is read; no digit at all gives [NaN].  The result
    here is the integer read, exactly; the source's result is the double
    nearest to it, which is that integer when it is below 2^53 in
    magnitude (and infinite for very long runs of digits). *)
Definition parseInt (s : string) : number :=
  let l := trimStart_codes (codes s) in
  let '(sign, l) :=
    match l with
    | 45 :: r => ((-1)%Z, r)
    | 43 :: r => (1%Z, r)
    | _ => (1%Z, l)
    end in
  let '(radix, l) :=
    match l with
    | 48 :: 120 :: r => (16%Z, r)
    | 48 :: 88 :: r => (16%Z, r)
    | _ => (10%Z, l)
    end in
  match digits_prefix radix l with
  | [] => NaN
  | ds => Int (sign * digits_value radix ds)
  end.

(** Number to string, for the integers of the model.  It is what the
    source prints for an integer below 2^53 in magnitude; above, the
    source's number is a rounded double, printed in exponent form from
    1e21. *)
Definition string_of_Z (z : Z) : string :=
  NilZero.string_of_int (Z.to_int z).

(** *** JSON string quoting (QuoteJSONString) *)

Definition hex_digit (n : nat) : nat :=
  if (n <? 10)%nat then 48 + n else 97 + (n - 10).

Definition quote_code (c : nat) : string :=
  if Nat.eqb c 34 then backslash ++ dq
  else if Nat.eqb c 92 then backslash ++ backslash
  else if Nat.eqb c 8 then backslash ++ "b"
  else if Nat.eqb c 9 then backslash ++ "t"
  else if Nat.eqb c 10 then backslash ++ "n"
  else if Nat.eqb c 12 then backslash ++ "f"
  else if Nat.eqb c 13 then backslash ++ "r"
  else if (c <? 32)%nat then
    backslash ++ "u00" ++ bytes [hex_digit (c / 16); hex_digit (c mod 16)]
  else bytes [c].

Definition quote (s : string) : string :=
  dq ++ String.concat EmptyString (map quote_code (codes s)) ++ dq.

End JsString.
Import JsString.

(** ** Values decoded from JSON *)

Module Json.

#[local] Set Warnings "-register-all".

(** A decoded JSON value.  The fields of an object are its own properties,
    with distinct names, in enumeration order. *)
Inductive json : Type :=
| JNull
| JBool (b : bool)
| JNum (z : Z)
| JStr (s : string)
| JArr (items : list json)
| JObj (fields : list (string * json)).

(** Exceptions the script can meet; none is ever caught. *)
Inductive exn : Type :=
| TypeError      (* property read on null or undefined, call of a non-function *)
| SyntaxError    (* [res.json()] on a body that is not JSON *)
| NetworkError.  (* [fetch] rejected *)

Inductive result (A : Type) : Type :=
| Ok (a : A)
| Throw (e : exn).
Arguments Ok {A} a.
Arguments Throw {A} e.

(** A JavaScript value read from decoded JSON: [None] is [undefined]. *)
Definition value : Type := option json.

Fixpoint lookup (name : string) (fields : list (string * json)) : value :=
  match fields with
  | [] => None
  | (k, v) :: rest => if String.eqb k name then Some v else lookup name rest
  end.

(** [data.name] for one of the names the script reads ([detail], [message],
    [keys], [count]): a [TypeError] on [null]; an own property of an
    object; [undefined] on anything else.  (On an array, [keys] is the
    built-in iterator method rather than [undefined]; the only use of it,
    [data.keys.forEach], raises a [TypeError] on both.) *)
Definition get_prop (name : string) (data : json) : result value :=
  match data with
  | JNull => Throw TypeError
  | JObj fields => Ok (lookup name fields)
  | _ => Ok None
  end.

Definition truthy_value (v : value) : bool :=
  match v with
  | None => false
  | Some JNull => false
  | Some (JBool b) => b
  | Some (JNum z) => negb (z =? 0)%Z
  | Some (JStr s) => truthy s
  | Some (JArr _) => true
  | Some (JObj _) => true
  end.

(** [v || dflt]. *)
Definition or_else (v : value) (dflt : string) : value :=
  if truthy_value v then v else Some (JStr dflt).

(** ToString.  An array joins its elements with commas, [null] elements
    giving the empty string.  A decoded object has no callable [toString]
    of its own: it prints through [Object.prototype.toString] unless an own
    property shadows that method, in which case the conversion fails. *)
Fixpoint toString (v : json) : result string :=
  match v with
  | JNull => Ok "null"
  | JBool true => Ok "true"
  | JBool false => Ok "false"
  | JNum z => Ok (string_of_Z z)
  | JStr s => Ok s
  | JArr items =>
      (fix join (l : list json) : result string :=
         match l with
         | [] => Ok EmptyString
         | x :: r =>
             match (match x with JNull => Ok EmptyString | _ => toString x end) with
             | Throw e => Throw e
             | Ok sx =>
                 match r with
                 | [] => Ok sx
                 | _ :: _ =>
                     match join r with
                     | Throw e => Throw e
                     | Ok sr => Ok (sx ++ "," ++ sr)
                     end
                 end
             end
         end) items
  | JObj fields =>
      match lookup "toString" fields with
      | Some _ => Throw TypeError
      | None => Ok "[object Object]"
      end
  end.

Definition toString_value (v : value) : result string :=
  match v with
  | None => Ok "undefined"
  | Some j => toString j
  end.

(** The string a DOM text attribute ([innerText], [value]) takes when it is
    assigned a decoded value: [null] becomes the empty string. *)
Definition toDOMString (v : json) : result string :=
  match v with
  | JNull => Ok EmptyString
  | _ => toString v
  end.

(** [JSON.stringify(v, null, gap)] at indentation [indent]; [gap] empty is
    the compact form.  The fields of an object are in enumeration order. *)
Fixpoint stringify_at (gap indent : string) (v : json) : string :=
  let inner := indent ++ gap in
  let sep := if truthy gap then "," ++ newline ++ inner else "," in
  let wrap (opening closing : string) (parts : list string) : string :=
    match parts with
    | [] => opening ++ closing
    | _ :: _ =>
        if truthy gap then
          opening ++ newline ++ inner ++ String.concat sep parts
                  ++ newline ++ indent ++ closing
        else opening ++ String.concat sep parts ++ closing
    end in
  match v with
  | JNull => "null"
  | JBool true => "true"
  | JBool false => "false"
  | JNum z => string_of_Z z
  | JStr s => quote s
  | JArr items => wrap "[" "]" (map (stringify_at gap inner) items)
  | JObj fields =>
      wrap "{" "}"
        (map (fun kv : string * json =>
                quote (fst kv) ++ (if truthy gap then ": " else ":")
                      ++ stringify_at gap inner (snd kv))
             fields)
  end.

Definition stringify (v : json) : string := stringify_at EmptyString EmptyString v.

(** [JSON.stringify(v, null, 2)]. *)
Definition stringify2 (v : json) : string := stringify_at "  " EmptyString v.

(** A number as [JSON.stringify] serializes it: [NaN] is written [null]. *)
Definition json_of_number (n : number) : json :=
  match n with
  | NaN => JNull
  | Int z => JNum z
  end.

End Json.
Import Json.

(** ** The page *)

Module Page.

(** The status line: its text and [style.color]. *)
Record StatusBox : Type := mkStatusBox {
  innerText : string;
  color : string
}.

(** An entry of the key list: its text, and the [k] its [onclick] closure
    captured. *)
Record Li : Type := mkLi {
  li_innerText : string;
  li_k : json
}.

(** One field per element id; an input holds its [value], an output area
    its [innerText], the list its [<li>] children. *)
Record DOM : Type := mkDOM {
  el_statusBox : option StatusBox;
  el_key : option string;
  el_value : option string;
  el_ttl : option string;
  el_getKey : option string;
  el_getResult : option string;
  el_delKey : option string;
  el_keysList : option (list Li);
  el_statsBox : option string
}.

Definition set_statusBox (b : StatusBox) (d : DOM) : DOM :=
  mkDOM (Some b) (el_key d) (el_value d) (el_ttl d) (el_getKey d)
        (el_getResult d) (el_delKey d) (el_keysList d) (el_statsBox d).

Definition set_getKey (v : string) (d : DOM) : DOM :=
  mkDOM (el_statusBox d) (el_key d) (el_value d) (el_ttl d) (Some v)
        (el_getResult d) (el_delKey d) (el_keysList d) (el_statsBox d).

Definition set_getResult (text : string) (d : DOM) : DOM :=
  mkDOM (el_statusBox d) (el_key d) (el_value d) (el_ttl d) (el_getKey d)
        (Some text) (el_delKey d) (el_keysList d) (el_statsBox d).

Definition set_keysList (items : list Li) (d : DOM) : DOM :=
  mkDOM (el_statusBox d) (el_key d) (el_value d) (el_ttl d) (el_getKey d)
        (el_getResult d) (el_delKey d) (Some items) (el_statsBox d).

Definition set_statsBox (text : string) (d : DOM) : DOM :=
  mkDOM (el_statusBox d) (el_key d) (el_value d) (el_ttl d) (el_getKey d)
        (el_getResult d) (el_delKey d) (el_keysList d) (Some text).

(** [list.appendChild(li)]. *)
Definition appendChild (li : Li) (d : DOM) : DOM :=
  match el_keysList d with
  | Some items => set_keysList (items ++ [li]) d
  | None => d
  end.

End Page.
Import Page.

(** ** Asynchronous functions and the event loop *)

Module Loop.

(** A call of [fetch].  [url] is the text given as its first argument, as
    the script builds it: the browser parses it against the address of the
    page afterwards (a fragment or query is split off, dot segments are
    resolved, some characters are percent-encoded), and that is not
    modelled.  The statements are about the text the script hands over. *)
Record Request : Type := mkRequest {
  method : string;
  url : string;
  headers : list (string * string);
  body : option string
}.

(** A response as it arrives, before its body: the HTTP status. *)
Record Response : Type := mkResponse {
  status : nat
}.

(** [res.ok]: the status is in the range 200-299. *)
Definition ok (res : Response) : bool :=
  ((200 <=? status res) && (status res <=? 299))%nat.

(** The body of an async function, up to and across its awaits. *)
Inductive Async : Type :=
| Return
| Raise (e : exn)
| Read (k : DOM -> Async)
| Write (f : DOM -> DOM) (k : Async)
| Alert (msg : string) (k : Async)
| Call (callee : Async) (k : Async)                  (* a call that is not awaited *)
| AwaitFetch (rq : Request) (k : Response -> Async)  (* [await fetch(..)] *)
| AwaitJson (res : Response) (k : json -> Async).    (* [await res.json()] *)

(** What the outside can observe, in order. *)
Inductive Event : Type :=
| Requested (rq : Request)
| Alerted (msg : string)
| Uncaught (e : exn).

(** A function parked at an await. *)
Inductive Suspended : Type :=
| OnResponse (rq : Request) (k : Response -> Async)
| OnBody (res : Response) (k : json -> Async).

Record World : Type := mkWorld {
  dom : DOM;
  suspended : list Suspended;
  events : list Event
}.

(** Run a function body until it returns, throws or parks at an await.  A
    callee runs at once up to its own first await; whatever becomes of it
    later, the caller carries on. *)
Fixpoint exec (t : Async) (w : World) : World :=
  match t with
  | Return => w
  | Raise e => mkWorld (dom w) (suspended w) (events w ++ [Uncaught e])
  | Read k => exec (k (dom w)) w
  | Write f k => exec k (mkWorld (f (dom w)) (suspended w) (events w))
  | Alert msg k => exec k (mkWorld (dom w) (suspended w) (events w ++ [Alerted msg]))
  | Call callee k => exec k (exec callee w)
  | AwaitFetch rq k =>
      mkWorld (dom w) (suspended w ++ [OnResponse rq k]) (events w ++ [Requested rq])
  | AwaitJson res k =>
      mkWorld (dom w) (suspended w ++ [OnBody res k]) (events w)
  end.

(** What the environment hands to a parked function. *)
Inductive Input : Type :=
| Responded (res : Response)   (* the response arrived *)
| Failed                       (* the request failed: [fetch] rejects *)
| Body (data : json)           (* the body arrived and is JSON *)
| Unparsable.                  (* the body is not JSON: [res.json()] rejects *)

Definition resume (s : Suspended) (inp : Input) : option Async :=
  match s, inp with
  | OnResponse _ k, Responded res => Some (k res)
  | OnResponse _ _, Failed => Some (Raise NetworkError)
  | OnBody _ k, Body data => Some (k data)
  | OnBody _ _, Unparsable => Some (Raise SyntaxError)
  | _, _ => None
  end.

(** Deliver [inp] to the [i]-th parked function; [None] when there is no
    such function or it waits for something else. *)
Definition deliver (i : nat) (inp : Input) (w : World) : option World :=
  match nth_error (suspended w) i with
  | None => None
  | Some s =>
      match resume s inp with
      | None => None
      | Some t =>
          Some (exec t (mkWorld (dom w)
                                (firstn i (suspended w) ++ skipn (S i) (suspended w))
                                (events w)))
      end
  end.

(** Deliver to the function that parked last. *)
Definition answer (inp : Input) (w : World) : option World :=
  deliver (List.length (suspended w) - 1) inp w.

(** Deliver a sequence of inputs, each to the function that parked last:
    one operation, and the operations it calls, run alone. *)
Fixpoint answers (inps : list Input) (w : World) : option World :=
  match inps with
  | [] => Some w
  | inp :: rest =>
      match answer inp w with
      | Some w' => answers rest w'
      | None => None
      end
  end.

(** Deliver a sequence of inputs, each to the parked function of the given
    index: any interleaving of the operations in flight. *)
Fixpoint deliveries (inps : list (nat * Input)) (w : World) : option World :=
  match inps with
  | [] => Some w
  | (i, inp) :: rest =>
      match deliver i inp w with
      | Some w' => deliveries rest w'
      | None => None
      end
  end.

End Loop.
Import Loop.

(** ** The script *)

(** [document.getElementById(id).value.trim()]: a [TypeError] when the
    element is missing. *)
Definition valueTrim (el : option string) (k : string -> Async) : Async :=
  match el with
  | None => Raise TypeError
  | Some v => k (trim v)
  end.

(** Continue with the value of an expression, or throw what it throws. *)
Definition eval {A : Type} (r : result A) (k : A -> Async) : Async :=
  match r with
  | Ok a => k a
  | Throw e => Raise e
  end.

Definition GET (path : string) : Request := mkRequest "GET" path [] None.
Definition DELETE (path : string) : Request := mkRequest "DELETE" path [] None.
Definition POST (path : string) : Request := mkRequest "POST" path [] None.
Definition POST_json (path body : string) : Request :=
  mkRequest "POST" path [("Content-Type", "application/json")] (Some body).

(** [showStatus] (lines 5-9): show a success or error status message; a
    page without the status box shows nothing. *)
Definition showStatus (msg : string) (ok : bool) (d : DOM) : DOM :=
  match el_statusBox d with
  | None => d
  | Some _ => set_statusBox (mkStatusBox msg (if ok then "green" else "red")) d
  end.

(** [JSON.stringify({key, value, ttl})]; [ttl] is [null] ([None]) or the
    result of [parseInt]. *)
Definition set_body (key value : string) (ttl : option number) : string :=
  stringify (JObj [ ("key", JStr key);
                    ("value", JStr value);
                    ("ttl", match ttl with
                            | None => JNull
                            | Some n => json_of_number n
                            end) ]).

(** [out.innerText = text] for [out] the [getResult] element: a [TypeError]
    when it is missing. *)
Definition out_innerText (text : string) (k : Async) : Async :=
  Read (fun d =>
  match el_getResult d with
  | None => Raise TypeError
  | Some _ => Write (set_getResult text) k
  end).

(** [getKey] (lines 34-48).  [out] is looked up before the request and
    first used after the body is decoded; elements neither appear nor vanish,
    so the lookup is made where it is used. *)
Definition getKey : Async :=
  Read (fun d =>
  valueTrim (el_getKey d) (fun key =>
  AwaitFetch (GET ("/get/" ++ key)) (fun res =>
  AwaitJson res (fun data =>
  if ok res then
    out_innerText (stringify2 data) (
    Write (showStatus "✅ Key fetched successfully" true) Return)
  else
    out_innerText "Key not found" (
    Write (showStatus "❌ Key not found" false) Return))))).

(** Modelled from the spec: the markup of the page is not under src/; the
    spec calls the element the lookup input field.  The value setter of a
    text input removes every line feed and carriage return from the text it
    is given. *)
Definition input_value (text : string) : string :=
  bytes (filter (fun c => negb (Nat.eqb c 10 || Nat.eqb c 13)) (codes text)).

(** The click handler of a list entry (lines 80-83), closed over its [k]:
    fill the lookup field, then call [getKey] without awaiting it. *)
Definition onclick (k : json) : Async :=
  Read (fun d =>
  match el_getKey d with
  | None => Raise TypeError
  | Some _ =>
      eval (toDOMString k) (fun text =>
      Write (set_getKey (input_value text)) (
      Call getKey Return))
  end).

(** [data.keys.forEach(k => ...)] (lines 75-86), the list element being
    there; the closure of [li.onclick] is kept as the [k] it captured. *)
Fixpoint forEach_key (keys : list json) (k : Async) : Async :=
  match keys with
  | [] => k
  | key :: rest =>
      eval (toDOMString key) (fun text =>
      Write (appendChild (mkLi text key)) (
      forEach_key rest k))
  end.

(** [loadKeys] (lines 66-89).  [data.keys.forEach] needs [data.keys] to be
    an array; on anything else the call is a [TypeError]. *)
Definition loadKeys : Async :=
  Read (fun d =>
  match el_keysList d with
  | None => Return
  | Some _ =>
      Write (set_keysList []) (
      AwaitFetch (GET "/keys") (fun res =>
      AwaitJson res (fun data =>
      eval (get_prop "keys" data) (fun keys =>
      match keys with
      | Some (JArr items) =>
          forEach_key items (
          eval (get_prop "count" data) (fun count =>
          eval (toString_value count) (fun n =>
          Write (showStatus ("✅ Keys loaded (" ++ n ++ ")") true) Return)))
      | _ => Raise TypeError
      end))))
  end).

(** [setKey] (lines 12-31). *)
Definition setKey : Async :=
  Read (fun d =>
  valueTrim (el_key d) (fun key =>
  valueTrim (el_value d) (fun value =>
  valueTrim (el_ttl d) (fun ttlRaw =>
  let ttl := if truthy ttlRaw then Some (parseInt ttlRaw) else None in
  AwaitFetch (POST_json "/set" (set_body key value ttl)) (fun res =>
  if ok res then
    Write (showStatus "✅ Key saved successfully" true) (
    Call loadKeys Return)
  else
    AwaitJson res (fun data =>
    eval (get_prop "detail" data) (fun detail =>
    eval (toString_value (or_else detail "Error")) (fun msg =>
    Write (showStatus ("❌ " ++ msg) false) Return)))))))).

(** [deleteKey] (lines 51-63). *)
Definition deleteKey : Async :=
  Read (fun d =>
  valueTrim (el_delKey d) (fun key =>
  AwaitFetch (DELETE ("/delete/" ++ key)) (fun res =>
  AwaitJson res (fun data =>
  if ok res then
    Write (showStatus ("✅ Key deleted: " ++ key) true) (
    Call loadKeys Return)
  else
    eval (get_prop "detail" data) (fun detail =>
    eval (toString_value (or_else detail "Error")) (fun msg =>
    Write (showStatus ("❌ " ++ msg) false) Return)))))).

(** The end of the success branch of [clearAll]: the [getResult] element,
    when the page has one, gets the empty text. *)
Definition clear_out (d : DOM) : DOM :=
  match el_getResult d with
  | Some _ => set_getResult EmptyString d
  | None => d
  end.

(** [clearAll] (lines 92-104). *)
Definition clearAll : Async :=
  AwaitFetch (DELETE "/clear") (fun res =>
  AwaitJson res (fun data =>
  if ok res then
    eval (get_prop "message" data) (fun message =>
    eval (toString_value message) (fun msg =>
    Write (showStatus ("✅ " ++ msg) true) (
    Call loadKeys (
    Write clear_out Return))))
  else
    Write (showStatus "❌ Error clearing store" false) Return)).

(** [loadStats] (lines 107-114). *)
Definition loadStats : Async :=
  AwaitFetch (GET "/stats") (fun res =>
  AwaitJson res (fun data =>
  Read (fun d =>
  match el_statsBox d with
  | None => Raise TypeError
  | Some _ => Write (set_statsBox (stringify2 data)) Return
  end))).

(** [compactWAL] (lines 117-122). *)
Definition compactWAL : Async :=
  AwaitFetch (POST "/compact") (fun res =>
  AwaitJson res (fun data =>
  eval (get_prop "message" data) (fun message =>
  eval (toString_value (or_else message "WAL compacted")) (fun msg =>
  Alert msg (
  Call loadStats Return))))).

(** [window.onload]. *)
Definition onload : Async := Call loadKeys Return.

(** A click on the [i]-th entry of the key list runs its handler. *)
Definition click (i : nat) (w : World) : option World :=
  match el_keysList (dom w) with
  | None => None
  | Some items =>
      match nth_error items i with
      | None => None
      | Some li => Some (exec (onclick (li_k li)) w)
      end
  end.

(** ** Vocabulary of the statements *)

(** The request [setKey] sends when the three fields hold [key], [value]
    and [ttl]. *)
Definition setKey_request (key value ttl : string) : Request :=
  POST_json "/set"
    (set_body (trim key) (trim value)
       (if truthy (trim ttl) then Some (parseInt (trim ttl)) else None)).

(** The call of [fetch] that [getKey] makes when the lookup field holds
    [field]: the field text, trimmed, is spliced into the URL text as it
    is. *)
Definition getKey_request (field : string) : Request :=
  GET ("/get/" ++ trim field).

(** The call of [fetch] that [deleteKey] makes when the delete field holds
    [field]: the field text, trimmed, is spliced into the URL text as it
    is. *)
Definition deleteKey_request (field : string) : Request :=
  DELETE ("/delete/" ++ trim field).

(** The text of a [/set] request body whose [ttl] member is written [ttl]. *)
Definition set_request_text (key value ttl : string) : string :=
  "{" ++ dq ++ "key" ++ dq ++ ":" ++ quote key ++ ","
      ++ dq ++ "value" ++ dq ++ ":" ++ quote value ++ ","
      ++ dq ++ "ttl" ++ dq ++ ":" ++ ttl ++ "}".

(** The entry [loadKeys] builds for a key that is a string. *)
Definition li_of (k : string) : Li := mkLi k (JStr k).

(** A request for the key enumeration. *)
Definition is_refresh (e : Event) : bool :=
  match e with
  | Requested rq => String.eqb (method rq) "GET" && String.eqb (url rq) "/keys"
  | _ => false
  end.

Definition refresh_requests (evs : list Event) : nat :=
  List.length (filter is_refresh evs).

(** The number of key-list requests sent while [op] is started in [w] and
    the inputs [inps] are delivered to it in turn. *)
Definition refreshes (op : Async) (inps : list Input) (w : World) : option nat :=
  match answers inps (exec op w) with
  | Some w' => Some (refresh_requests (events w') - refresh_requests (events w))
  | None => None
  end.

(** Whether the success branch of [clearAll] can build its status text,
    ["✅ " + data.message], from the decoded body. *)
Definition message_shown (data : json) : bool :=
  match get_prop "message" data with
  | Ok message =>
      match toString_value message with
      | Ok _ => true
      | Throw _ => false
      end
  | Throw _ => false
  end.

(** The world once the operation that sent [rq] has reported [msg] on the
    status line and returned. *)
Definition reported (msg : string) (ok : bool) (rq : Request) (w : World) : World :=
  mkWorld (showStatus msg ok (dom w)) (suspended w) (events w ++ [Requested rq]).

(** The world once the operation that sent [rq] has thrown [e]: the page is
    as it was. *)
Definition raised (e : exn) (rq : Request) (w : World) : World :=
  mkWorld (dom w) (suspended w) (events w ++ [Requested rq; Uncaught e]).



(** [loadKeys] from the moment its body is decoded (lines 75-88), and from
    the moment its response arrives (line 73): the two continuations it
    parks, by name. *)
Definition loadKeys_finish (data : json) : Async :=
  eval (get_prop "keys" data) (fun keys =>
  match keys with
  | Some (JArr items) =>
      forEach_key items (
      eval (get_prop "count" data) (fun count =>
      eval (toString_value count) (fun n =>
      Write (showStatus ("✅ Keys loaded (" ++ n ++ ")") true) Return)))
  | _ => Raise TypeError
  end).

Definition loadKeys_then (res : Response) : Async :=
  AwaitJson res loadKeys_finish.

(** An integer that a double holds exactly and that prints in decimal. *)
Definition safe_integer (z : Z) : Prop := (Z.abs z < 2 ^ 53)%Z.

(** A decoded value all of whose numbers are safe integers. *)
Fixpoint numbers_safe (v : json) : bool :=
  match v with
  | JNum z => (Z.abs z <? 2 ^ 53)%Z
  | JArr items => forallb numbers_safe items
  | JObj fields => forallb (fun kv : string * json => numbers_safe (snd kv)) fields
  | _ => true
  end.

(** A key made of ASCII letters, digits, hyphens and underscores only: it
    has no white space, no line break, and none of the characters that the
    parsing of a URL treats specially. *)
Definition plain_code (c : nat) : bool :=
  ((48 <=? c) && (c <=? 57) || (65 <=? c) && (c <=? 90)
   || (97 <=? c) && (c <=? 122) || Nat.eqb c 45 || Nat.eqb c 95)%nat.

Definition plain_key (k : string) : bool := forallb plain_code (codes k).

(** The entries built from keys and the texts they convert to. *)
Definition entries (texts : list string) (keys : list json) : list Li :=
  map (fun tk : string * json => mkLi (fst tk) (snd tk)) (combine texts keys).

(** ** A sample page *)

(** A dashboard page with every element present, the operator having typed
    a key, a value and no TTL. *)
Definition page0 : DOM :=
  mkDOM (Some (mkStatusBox "ready" "green"))
        (Some " alpha ") (Some "1") (Some "  ")
        (Some "alpha") (Some "old result") (Some "alpha")
        (Some [mkLi "stale" (JStr "stale")]) (Some EmptyString).

Definition world0 : World := mkWorld page0 [] [].

(** A page without the key list, such as a page that only shows the form. *)
Definition page_nolist : DOM :=
  mkDOM (Some (mkStatusBox "ready" "green"))
        (Some "alpha") (Some "1") (Some "soon")
        (Some "alpha") (Some "old result") (Some "alpha")
        None (Some EmptyString).

(** ** Basic facts *)

Lemma append_assoc (a b c : string) : (a ++ b) ++ c = a ++ (b ++ c).
Proof.
  induction a as [|x a IH]; simpl; [reflexivity|].
  now rewrite IH.
Qed.

Lemma append_cancel_l (p a b : string) : p ++ a = p ++ b -> a = b.
Proof.
  induction p as [|x p IH]; simpl; intros H; [exact H|].
  injection H as H. now apply IH.
Qed.

(** The compact serialization of an object with three members. *)
Lemma stringify_obj3 (k1 k2 k3 : string) (v1 v2 v3 : json) :
  stringify (JObj [(k1, v1); (k2, v2); (k3, v3)]) =
  "{" ++ quote k1 ++ ":" ++ stringify v1 ++ ","
      ++ quote k2 ++ ":" ++ stringify v2 ++ ","
      ++ quote k3 ++ ":" ++ stringify v3 ++ "}".
Proof.
  unfold stringify.
  cbn [stringify_at map String.concat truthy fst snd].
  change (EmptyString ++ EmptyString) with EmptyString.
  cbn [append].
  repeat (rewrite !append_assoc; cbn [append]).
  reflexivity.
Qed.

(** The request body of [setKey] as text. *)
Lemma set_body_text (key value : string) (ttl : option number) :
  set_body key value ttl =
  "{" ++ dq ++ "key" ++ dq ++ ":" ++ quote key ++ ","
      ++ dq ++ "value" ++ dq ++ ":" ++ quote value ++ ","
      ++ dq ++ "ttl" ++ dq ++ ":"
      ++ match ttl with
         | Some (Int z) => string_of_Z z
         | _ => "null"
         end ++ "}".
Proof.
  unfold set_body. rewrite stringify_obj3.
  change (quote "key") with (dq ++ "key" ++ dq).
  change (quote "value") with (dq ++ "value" ++ dq).
  change (quote "ttl") with (dq ++ "ttl" ++ dq).
  change (stringify (JStr key)) with (quote key).
  change (stringify (JStr value)) with (quote value).
  repeat (rewrite !append_assoc; cbn [append]).
  destruct ttl as [[|z]|]; reflexivity.
Qed.

(** Delivering to the function that parked last resumes it and leaves the
    others parked. *)
Lemma answer_last (w : World) (l : list Suspended) (s : Suspended)
      (inp : Input) (t : Async) :
  suspended w = (l ++ [s])%list ->
  resume s inp = Some t ->
  answer inp w = Some (exec t (mkWorld (dom w) l (events w))).
Proof.
  intros Hs Hr. unfold answer, deliver. rewrite Hs.
  rewrite length_app. cbn [List.length].
  replace (List.length l + 1 - 1) with (List.length l) by lia.
  rewrite nth_error_app2 by lia. rewrite Nat.sub_diag. cbn [nth_error].
  rewrite Hr.
  rewrite firstn_app, firstn_all, Nat.sub_diag. cbn [firstn].
  rewrite skipn_app, skipn_all2 by lia.
  replace (S (List.length l) - List.length l) with 1 by lia. cbn [skipn].
  now rewrite !app_nil_r.
Qed.

Lemma showStatus_shown (msg : string) (ok : bool) (d : DOM) (b : StatusBox) :
  el_statusBox d = Some b ->
  el_statusBox (showStatus msg ok d)
  = Some (mkStatusBox msg (if ok then "green" else "red")).
Proof. intros H. unfold showStatus. now rewrite H. Qed.

Lemma showStatus_absent (msg : string) (ok : bool) (d : DOM) :
  el_statusBox d = None -> showStatus msg ok d = d.
Proof. intros H. unfold showStatus. now rewrite H. Qed.

(** ** Running one operation against the answers of the server *)

(** Resume the function that parked last, when the world is displayed as a
    record. *)
Ltac answer_last_step :=
  erewrite answer_last;
  [ | cbn [suspended]; reflexivity | cbn [resume]; reflexivity ];
  cbn [dom events suspended].

Ltac run_answers :=
  cbn [answers];
  repeat (answer_last_step; cbn [exec eval answers dom suspended events]).

(** ** [getKey] *)

Section GetKey.

Variable w : World.
Variables key out : string.
Hypothesis HgetKey : el_getKey (dom w) = Some key.
Hypothesis HgetResult : el_getResult (dom w) = Some out.


Lemma getKey_not_ok (res : Response) (data : json) :
  ok res = false ->
  answers [Responded res; Body data] (exec getKey w)
  = Some (mkWorld
            (showStatus "❌ Key not found" false
               (set_getResult "Key not found" (dom w)))
            (suspended w)
            (events w ++ [Requested (getKey_request key)])).
Proof.
  intros Hok.
  unfold getKey. cbn [exec]. rewrite HgetKey. cbn [valueTrim exec].
  run_answers. rewrite Hok. unfold out_innerText. cbn [exec dom].
  rewrite HgetResult. reflexivity.
Qed.

Lemma getKey_ok (res : Response) (data : json) :
  ok res = true ->
  answers [Responded res; Body data] (exec getKey w)
  = Some (mkWorld
            (showStatus "✅ Key fetched successfully" true
               (set_getResult (stringify2 data) (dom w)))
            (suspended w)
            (events w ++ [Requested (getKey_request key)])).
Proof.
  intros Hok.
  unfold getKey. cbn [exec]. rewrite HgetKey. cbn [valueTrim exec].
  run_answers. rewrite Hok. unfold out_innerText. cbn [exec dom].
  rewrite HgetResult. reflexivity.
Qed.

Lemma getKey_network_failure :
  answers [Failed] (exec getKey w)
  = Some (mkWorld (dom w) (suspended w)
                  (events w ++ [Requested (getKey_request key); Uncaught NetworkError])).
Proof.
  unfold getKey. cbn [exec]. rewrite HgetKey. cbn [valueTrim exec].
  run_answers. now rewrite <- app_assoc.
Qed.

Lemma getKey_unparsable (res : Response) :
  answers [Responded res; Unparsable] (exec getKey w)
  = Some (mkWorld (dom w) (suspended w)
                  (events w ++ [Requested (getKey_request key); Uncaught SyntaxError])).
Proof.
  unfold getKey. cbn [exec]. rewrite HgetKey. cbn [valueTrim exec].
  run_answers. now rewrite <- app_assoc.
Qed.

End GetKey.

(** ** [setKey] *)

Section SetKey.

Variable w : World.
Variables key value ttl : string.
Hypothesis Hkey : el_key (dom w) = Some key.
Hypothesis Hvalue : el_value (dom w) = Some value.
Hypothesis Httl : el_ttl (dom w) = Some ttl.

Ltac start_setKey :=
  unfold setKey; cbn [exec]; rewrite Hkey, Hvalue, Httl; cbn [valueTrim exec].

Lemma setKey_issue_world :
  dom (exec setKey w) = dom w
  /\ events (exec setKey w) = (events w ++ [Requested (setKey_request key value ttl)])%list
  /\ List.length (suspended (exec setKey w)) = S (List.length (suspended w)).
Proof.
  start_setKey. cbn [dom events suspended]. rewrite length_app.
  cbn [List.length]. repeat split; lia.
Qed.

(** On a successful response [setKey] reports and calls [loadKeys]; it
    does not ask for the body. *)
Lemma setKey_ok (res : Response) :
  ok res = true ->
  answer (Responded res) (exec setKey w)
  = Some (exec loadKeys
            (mkWorld (showStatus "✅ Key saved successfully" true (dom w))
                     (suspended w)
                     (events w ++ [Requested (setKey_request key value ttl)]))).
Proof.
  intros Hok. start_setKey. answer_last_step. rewrite Hok. reflexivity.
Qed.

(** On a failure response it asks for the body. *)
Lemma setKey_not_ok_awaits_body (res : Response) :
  ok res = false ->
  exists k,
    answer (Responded res) (exec setKey w)
    = Some (mkWorld (dom w) (suspended w ++ [OnBody res k])
                    (events w ++ [Requested (setKey_request key value ttl)])).
Proof.
  intros Hok. eexists. start_setKey. answer_last_step. rewrite Hok.
  cbn [exec]. reflexivity.
Qed.

Lemma setKey_not_ok (res : Response) (data : json) (detail : Json.value) (msg : string) :
  ok res = false ->
  get_prop "detail" data = Ok detail ->
  toString_value (or_else detail "Error") = Ok msg ->
  answers [Responded res; Body data] (exec setKey w)
  = Some (mkWorld (showStatus ("❌ " ++ msg) false (dom w))
                  (suspended w)
                  (events w ++ [Requested (setKey_request key value ttl)])).
Proof.
  intros Hok Hdetail Hmsg. start_setKey. cbn [answers].
  answer_last_step. rewrite Hok. cbn [exec].
  answer_last_step. rewrite Hdetail. cbn [eval]. rewrite Hmsg. reflexivity.
Qed.

Lemma setKey_not_ok_unparsable (res : Response) :
  ok res = false ->
  answers [Responded res; Unparsable] (exec setKey w)
  = Some (mkWorld (dom w) (suspended w)
                  (events w ++ [Requested (setKey_request key value ttl); Uncaught SyntaxError])).
Proof.
  intros Hok. start_setKey. cbn [answers].
  answer_last_step. rewrite Hok. cbn [exec].
  answer_last_step. cbn [exec dom suspended events].
  now rewrite <- app_assoc.
Qed.

Lemma setKey_not_ok_null (res : Response) :
  ok res = false ->
  answers [Responded res; Body JNull] (exec setKey w)
  = Some (mkWorld (dom w) (suspended w)
                  (events w ++ [Requested (setKey_request key value ttl); Uncaught TypeError])).
Proof.
  intros Hok. start_setKey. cbn [answers].
  answer_last_step. rewrite Hok. cbn [exec].
  answer_last_step. cbn [get_prop eval exec dom suspended events].
  now rewrite <- app_assoc.
Qed.

Lemma setKey_network_failure :
  answers [Failed] (exec setKey w)
  = Some (mkWorld (dom w) (suspended w)
                  (events w ++ [Requested (setKey_request key value ttl); Uncaught NetworkError])).
Proof.
  start_setKey. run_answers. now rewrite <- app_assoc.
Qed.

End SetKey.

(** ** [deleteKey] *)

Section DeleteKey.

Variable w : World.
Variable key : string.
Hypothesis HdelKey : el_delKey (dom w) = Some key.

Ltac start_deleteKey :=
  unfold deleteKey; cbn [exec]; rewrite HdelKey; cbn [valueTrim exec].

Lemma deleteKey_issue_world :
  dom (exec deleteKey w) = dom w
  /\ events (exec deleteKey w) = (events w ++ [Requested (deleteKey_request key)])%list
  /\ List.length (suspended (exec deleteKey w)) = S (List.length (suspended w)).
Proof.
  start_deleteKey. cbn [dom events suspended]. rewrite length_app.
  cbn [List.length]. repeat split; lia.
Qed.

(** Whatever the response, [deleteKey] goes on to decode its body. *)
Lemma deleteKey_awaits_body (res : Response) :
  exists k,
    answer (Responded res) (exec deleteKey w)
    = Some (mkWorld (dom w) (suspended w ++ [OnBody res k])
                    (events w ++ [Requested (deleteKey_request key)])).
Proof.
  eexists. start_deleteKey. answer_last_step. cbn [exec]. reflexivity.
Qed.

Lemma deleteKey_ok (res : Response) (data : json) :
  ok res = true ->
  answers [Responded res; Body data] (exec deleteKey w)
  = Some (exec loadKeys
            (mkWorld (showStatus ("✅ Key deleted: " ++ trim key) true (dom w))
                     (suspended w)
                     (events w ++ [Requested (deleteKey_request key)]))).
Proof.
  intros Hok. start_deleteKey. run_answers. rewrite Hok. reflexivity.
Qed.

Lemma deleteKey_not_ok (res : Response) (data : json) (detail : value) (msg : string) :
  ok res = false ->
  get_prop "detail" data = Ok detail ->
  toString_value (or_else detail "Error") = Ok msg ->
  answers [Responded res; Body data] (exec deleteKey w)
  = Some (mkWorld (showStatus ("❌ " ++ msg) false (dom w))
                  (suspended w)
                  (events w ++ [Requested (deleteKey_request key)])).
Proof.
  intros Hok Hdetail Hmsg. start_deleteKey. run_answers.
  rewrite Hok, Hdetail. cbn [eval]. rewrite Hmsg. reflexivity.
Qed.

Lemma deleteKey_not_ok_null (res : Response) :
  ok res = false ->
  answers [Responded res; Body JNull] (exec deleteKey w)
  = Some (mkWorld (dom w) (suspended w)
                  (events w ++ [Requested (deleteKey_request key); Uncaught TypeError])).
Proof.
  intros Hok. start_deleteKey. run_answers. rewrite Hok.
  cbn [get_prop eval exec dom suspended events].
  now rewrite <- app_assoc.
Qed.

Lemma deleteKey_unparsable (res : Response) :
  answers [Responded res; Unparsable] (exec deleteKey w)
  = Some (mkWorld (dom w) (suspended w)
                  (events w ++ [Requested (deleteKey_request key); Uncaught SyntaxError])).
Proof.
  start_deleteKey. run_answers. now rewrite <- app_assoc.
Qed.

Lemma deleteKey_network_failure :
  answers [Failed] (exec deleteKey w)
  = Some (mkWorld (dom w) (suspended w)
                  (events w ++ [Requested (deleteKey_request key); Uncaught NetworkError])).
Proof.
  start_deleteKey. run_answers. now rewrite <- app_assoc.
Qed.

End DeleteKey.

(** ** [loadKeys] *)

Lemma set_keysList_same (d : DOM) (items : list Li) :
  el_keysList d = Some items -> set_keysList items d = d.
Proof. destruct d; cbn. intros ->. reflexivity. Qed.

(** The loop over the keys appends one entry per key, in order. *)
Lemma forEach_key_strings (keys : list string) (k : Async) :
  forall (W : World) (cur : list Li),
    el_keysList (dom W) = Some cur ->
    exec (forEach_key (map JStr keys) k) W
    = exec k (mkWorld (set_keysList (cur ++ map li_of keys) (dom W))
                      (suspended W) (events W)).
Proof.
  induction keys as [|key keys IH]; intros W cur Hcur.
  - cbn [map forEach_key]. rewrite app_nil_r.
    rewrite (set_keysList_same _ _ Hcur). now destruct W.
  - cbn [map forEach_key toDOMString toString eval exec].
    rewrite (IH _ (cur ++ [li_of key])%list).
    + cbn [dom suspended events]. unfold appendChild. rewrite Hcur.
      rewrite <- app_assoc. reflexivity.
    + cbn [dom]. unfold appendChild. rewrite Hcur. reflexivity.
Qed.

Section LoadKeys.

Variable w : World.
Variable items : list Li.
Hypothesis Hlist : el_keysList (dom w) = Some items.

Ltac start_loadKeys :=
  unfold loadKeys; cbn [exec]; rewrite Hlist; cbn [exec dom suspended events].

(** Up to its [await fetch], [loadKeys] empties the list and asks for the keys. *)
Lemma loadKeys_issue_world :
  dom (exec loadKeys w) = set_keysList [] (dom w)
  /\ events (exec loadKeys w) = (events w ++ [Requested (GET "/keys")])%list
  /\ List.length (suspended (exec loadKeys w)) = S (List.length (suspended w)).
Proof.
  start_loadKeys. rewrite length_app. cbn [List.length]. repeat split; lia.
Qed.

Lemma loadKeys_rebuild (res : Response) (fields : list (string * json))
      (keys : list string) (n : Z) :
  lookup "keys" fields = Some (JArr (map JStr keys)) ->
  lookup "count" fields = Some (JNum n) ->
  answers [Responded res; Body (JObj fields)] (exec loadKeys w)
  = Some (mkWorld
            (showStatus ("✅ Keys loaded (" ++ string_of_Z n ++ ")") true
               (set_keysList (map li_of keys) (dom w)))
            (suspended w)
            (events w ++ [Requested (GET "/keys")])).
Proof.
  intros Hkeys Hcount. start_loadKeys. run_answers.
  cbn [get_prop eval]. rewrite Hkeys.
  rewrite (forEach_key_strings keys _ _ []) by reflexivity.
  cbn [dom suspended events app]. rewrite Hcount.
  cbn [eval exec toString_value toString dom suspended events].
  reflexivity.
Qed.

End LoadKeys.

(** A click on an entry built for the string [k]. *)
Lemma click_li_of (w : World) (items : list Li) (i : nat) (k field : string) :
  el_keysList (dom w) = Some items ->
  nth_error items i = Some (li_of k) ->
  el_getKey (dom w) = Some field ->
  click i w
  = Some (exec getKey
            (mkWorld (set_getKey (input_value k) (dom w)) (suspended w) (events w))).
Proof.
  intros Hitems Hi Hfield. unfold click. rewrite Hitems, Hi.
  cbn [li_of li_k onclick exec]. rewrite Hfield.
  cbn [toDOMString toString eval exec]. reflexivity.
Qed.

(** [getKey] up to its [await fetch]: it asks for the trimmed text of the
    lookup field. *)
Lemma getKey_issue_world (w : World) (field : string) :
  el_getKey (dom w) = Some field ->
  dom (exec getKey w) = dom w
  /\ events (exec getKey w) = (events w ++ [Requested (getKey_request field)])%list
  /\ List.length (suspended (exec getKey w)) = S (List.length (suspended w)).
Proof.
  intros H. unfold getKey. cbn [exec]. rewrite H.
  cbn [valueTrim exec dom suspended events].
  rewrite length_app. cbn [List.length]. repeat split; lia.
Qed.

(** ** [clearAll] *)

Section ClearAll.

Variable w : World.

Lemma clearAll_issue_world :
  dom (exec clearAll w) = dom w
  /\ events (exec clearAll w) = (events w ++ [Requested (DELETE "/clear")])%list
  /\ List.length (suspended (exec clearAll w)) = S (List.length (suspended w)).
Proof.
  unfold clearAll. cbn [exec dom events suspended]. rewrite length_app.
  cbn [List.length]. repeat split; lia.
Qed.

Lemma clearAll_ok (res : Response) (data : json) (message : Json.value) (msg : string) :
  ok res = true ->
  get_prop "message" data = Ok message ->
  toString_value message = Ok msg ->
  answers [Responded res; Body data] (exec clearAll w)
  = Some (exec (Write clear_out Return)
            (exec loadKeys
               (mkWorld (showStatus ("✅ " ++ msg) true (dom w))
                        (suspended w)
                        (events w ++ [Requested (DELETE "/clear")])))).
Proof.
  intros Hok Hmessage Hmsg. unfold clearAll. cbn [exec]. run_answers.
  rewrite Hok, Hmessage. cbn [eval]. rewrite Hmsg. reflexivity.
Qed.

Lemma clearAll_not_ok (res : Response) (data : json) :
  ok res = false ->
  answers [Responded res; Body data] (exec clearAll w)
  = Some (mkWorld (showStatus "❌ Error clearing store" false (dom w))
                  (suspended w)
                  (events w ++ [Requested (DELETE "/clear")])).
Proof.
  intros Hok. unfold clearAll. cbn [exec]. run_answers.
  rewrite Hok. reflexivity.
Qed.

Lemma clearAll_ok_null (res : Response) :
  ok res = true ->
  answers [Responded res; Body JNull] (exec clearAll w)
  = Some (mkWorld (dom w) (suspended w)
                  (events w ++ [Requested (DELETE "/clear"); Uncaught TypeError])).
Proof.
  intros Hok. unfold clearAll. cbn [exec]. run_answers.
  rewrite Hok. cbn [get_prop eval exec dom suspended events].
  now rewrite <- app_assoc.
Qed.

Lemma clearAll_unparsable (res : Response) :
  answers [Responded res; Unparsable] (exec clearAll w)
  = Some (mkWorld (dom w) (suspended w)
                  (events w ++ [Requested (DELETE "/clear"); Uncaught SyntaxError])).
Proof.
  unfold clearAll. cbn [exec]. run_answers. now rewrite <- app_assoc.
Qed.

Lemma clearAll_network_failure :
  answers [Failed] (exec clearAll w)
  = Some (mkWorld (dom w) (suspended w)
                  (events w ++ [Requested (DELETE "/clear"); Uncaught NetworkError])).
Proof.
  unfold clearAll. cbn [exec]. run_answers. now rewrite <- app_assoc.
Qed.

End ClearAll.

(** ** [loadStats] and [compactWAL] *)

Section Stats.

Variable w : World.

Lemma loadStats_issue_world :
  dom (exec loadStats w) = dom w
  /\ events (exec loadStats w) = (events w ++ [Requested (GET "/stats")])%list
  /\ List.length (suspended (exec loadStats w)) = S (List.length (suspended w)).
Proof.
  unfold loadStats. cbn [exec dom events suspended]. rewrite length_app.
  cbn [List.length]. repeat split; lia.
Qed.

Lemma loadStats_shown (res : Response) (data : json) (box : string) :
  el_statsBox (dom w) = Some box ->
  answers [Responded res; Body data] (exec loadStats w)
  = Some (mkWorld (set_statsBox (stringify2 data) (dom w))
                  (suspended w)
                  (events w ++ [Requested (GET "/stats")])).
Proof.
  intros Hbox. unfold loadStats. cbn [exec]. run_answers.
  rewrite Hbox. reflexivity.
Qed.

Lemma compactWAL_done (res : Response) (data : json) (message : Json.value) (msg : string) :
  get_prop "message" data = Ok message ->
  toString_value (or_else message "WAL compacted") = Ok msg ->
  answers [Responded res; Body data] (exec compactWAL w)
  = Some (exec loadStats
            (mkWorld (dom w) (suspended w)
                     (events w ++ [Requested (POST "/compact"); Alerted msg]))).
Proof.
  intros Hmessage Hmsg. unfold compactWAL. cbn [exec]. run_answers.
  rewrite Hmessage. cbn [eval]. rewrite Hmsg.
  cbn [eval exec dom suspended events]. rewrite <- app_assoc. reflexivity.
Qed.

End Stats.

(** ** Counting the refreshes a chain issues *)

Lemma refresh_requests_app (a b : list Event) :
  refresh_requests (a ++ b) = refresh_requests a + refresh_requests b.
Proof. unfold refresh_requests. now rewrite filter_app, length_app. Qed.

Lemma refreshes_from_events (op : Async) (inps : list Input) (w w' : World)
      (extra : list Event) :
  answers inps (exec op w) = Some w' ->
  events w' = (events w ++ extra)%list ->
  refreshes op inps w = Some (refresh_requests extra).
Proof.
  intros Hrun Hev. unfold refreshes. rewrite Hrun, Hev, refresh_requests_app.
  f_equal. lia.
Qed.

Lemma el_keysList_showStatus (msg : string) (b : bool) (d : DOM) :
  el_keysList (showStatus msg b d) = el_keysList d.
Proof. unfold showStatus. now destruct (el_statusBox d). Qed.

Lemma el_getResult_showStatus (msg : string) (b : bool) (d : DOM) :
  el_getResult (showStatus msg b d) = el_getResult d.
Proof. unfold showStatus. now destruct (el_statusBox d). Qed.

(** Started on a page that has the key list, [loadKeys] sends one request
    for the keys. *)
Lemma loadKeys_events (W : World) (items : list Li) :
  el_keysList (dom W) = Some items ->
  events (exec loadKeys W) = (events W ++ [Requested (GET "/keys")])%list.
Proof. intros H. now destruct (loadKeys_issue_world W items H) as [_ [He _]]. Qed.

Section RefreshOrdering.

Variable w : World.
Variable items : list Li.
Variables key value ttl delKey : string.
Hypothesis Hlist : el_keysList (dom w) = Some items.
Hypothesis Hkey : el_key (dom w) = Some key.
Hypothesis Hvalue : el_value (dom w) = Some value.
Hypothesis Httl : el_ttl (dom w) = Some ttl.
Hypothesis HdelKey : el_delKey (dom w) = Some delKey.

Lemma loadKeys_events_after_status (msg : string) (b : bool) (evs : list Event) :
  events (exec loadKeys (mkWorld (showStatus msg b (dom w)) (suspended w) evs))
  = (evs ++ [Requested (GET "/keys")])%list.
Proof.
  rewrite (loadKeys_events _ items); [reflexivity|].
  cbn [dom]. now rewrite el_keysList_showStatus.
Qed.

Lemma setKey_refreshes_issue : refreshes setKey [] w = Some 0.
Proof.
  destruct (setKey_issue_world w key value ttl Hkey Hvalue Httl) as [_ [He _]].
  now apply (refreshes_from_events _ _ _ (exec setKey w) [Requested (setKey_request key value ttl)]).
Qed.

Lemma setKey_refreshes_response (res : Response) :
  refreshes setKey [Responded res] w = Some (if ok res then 1 else 0).
Proof.
  destruct (ok res) eqn:Hok.
  - eapply (refreshes_from_events _ _ _ _ [Requested (setKey_request key value ttl); Requested (GET "/keys")]).
    + cbn [answers]. rewrite (setKey_ok w key value ttl Hkey Hvalue Httl res Hok).
      reflexivity.
    + rewrite loadKeys_events_after_status. now rewrite <- app_assoc.
  - destruct (setKey_not_ok_awaits_body w key value ttl Hkey Hvalue Httl res Hok)
      as [k Hk].
    eapply (refreshes_from_events _ _ _ _ [Requested (setKey_request key value ttl)]).
    + cbn [answers]. rewrite Hk. reflexivity.
    + reflexivity.
Qed.

Lemma setKey_refreshes_failure_body (res : Response) (data : json) :
  ok res = false ->
  refreshes setKey [Responded res; Body data] w = Some 0.
Proof.
  intros Hok.
  destruct (get_prop "detail" data) as [detail|e] eqn:Hdetail.
  - destruct (toString_value (or_else detail "Error")) as [msg|e] eqn:Hmsg.
    + eapply (refreshes_from_events _ _ _ _ [Requested (setKey_request key value ttl)]).
      * apply (setKey_not_ok w key value ttl Hkey Hvalue Httl res data detail msg);
          assumption.
      * reflexivity.
    + eapply (refreshes_from_events _ _ _ _ [Requested (setKey_request key value ttl); Uncaught e]).
      * unfold setKey. cbn [exec]. rewrite Hkey, Hvalue, Httl.
        cbn [valueTrim exec answers].
        answer_last_step. rewrite Hok. cbn [exec].
        answer_last_step. rewrite Hdetail. cbn [eval]. rewrite Hmsg.
        cbn [eval exec dom suspended events]. reflexivity.
      * cbn [events]. now rewrite <- app_assoc.
  - eapply (refreshes_from_events _ _ _ _ [Requested (setKey_request key value ttl); Uncaught e]).
    + unfold setKey. cbn [exec]. rewrite Hkey, Hvalue, Httl.
      cbn [valueTrim exec answers].
      answer_last_step. rewrite Hok. cbn [exec].
      answer_last_step. rewrite Hdetail.
      cbn [eval exec dom suspended events]. reflexivity.
    + cbn [events]. now rewrite <- app_assoc.
Qed.

Lemma setKey_refreshes_failure_unparsable (res : Response) :
  ok res = false ->
  refreshes setKey [Responded res; Unparsable] w = Some 0.
Proof.
  intros Hok.
  eapply (refreshes_from_events _ _ _ _ [Requested (setKey_request key value ttl); Uncaught SyntaxError]).
  - apply (setKey_not_ok_unparsable w key value ttl Hkey Hvalue Httl res Hok).
  - reflexivity.
Qed.

Lemma setKey_refreshes_network_failure : refreshes setKey [Failed] w = Some 0.
Proof.
  eapply (refreshes_from_events _ _ _ _ [Requested (setKey_request key value ttl); Uncaught NetworkError]).
  - apply (setKey_network_failure w key value ttl Hkey Hvalue Httl).
  - reflexivity.
Qed.

Lemma deleteKey_refreshes_issue : refreshes deleteKey [] w = Some 0.
Proof.
  destruct (deleteKey_issue_world w delKey HdelKey) as [_ [He _]].
  now apply (refreshes_from_events _ _ _ (exec deleteKey w) [Requested (deleteKey_request delKey)]).
Qed.

Lemma deleteKey_refreshes_response (res : Response) :
  refreshes deleteKey [Responded res] w = Some 0.
Proof.
  destruct (deleteKey_awaits_body w delKey HdelKey res) as [k Hk].
  eapply (refreshes_from_events _ _ _ _ [Requested (deleteKey_request delKey)]).
  - cbn [answers]. rewrite Hk. reflexivity.
  - reflexivity.
Qed.

Lemma deleteKey_refreshes_body (res : Response) (data : json) :
  refreshes deleteKey [Responded res; Body data] w
  = Some (if ok res then 1 else 0).
Proof.
  destruct (ok res) eqn:Hok.
  - eapply (refreshes_from_events _ _ _ _ [Requested (deleteKey_request delKey); Requested (GET "/keys")]).
    + apply (deleteKey_ok w delKey HdelKey res data Hok).
    + rewrite loadKeys_events_after_status. now rewrite <- app_assoc.
  - destruct (get_prop "detail" data) as [detail|e] eqn:Hdetail.
    + destruct (toString_value (or_else detail "Error")) as [msg|e] eqn:Hmsg.
      * eapply (refreshes_from_events _ _ _ _ [Requested (deleteKey_request delKey)]).
        -- apply (deleteKey_not_ok w delKey HdelKey res data detail msg); assumption.
        -- reflexivity.
      * eapply (refreshes_from_events _ _ _ _ [Requested (deleteKey_request delKey); Uncaught e]).
        -- unfold deleteKey. cbn [exec]. rewrite HdelKey. cbn [valueTrim exec].
           run_answers. rewrite Hok, Hdetail. cbn [eval]. rewrite Hmsg.
           cbn [eval exec dom suspended events]. reflexivity.
        -- cbn [events]. now rewrite <- app_assoc.
    + eapply (refreshes_from_events _ _ _ _ [Requested (deleteKey_request delKey); Uncaught e]).
      * unfold deleteKey. cbn [exec]. rewrite HdelKey. cbn [valueTrim exec].
        run_answers. rewrite Hok, Hdetail.
        cbn [eval exec dom suspended events]. reflexivity.
      * cbn [events]. now rewrite <- app_assoc.
Qed.

Lemma deleteKey_refreshes_unparsable (res : Response) :
  refreshes deleteKey [Responded res; Unparsable] w = Some 0.
Proof.
  eapply (refreshes_from_events _ _ _ _ [Requested (deleteKey_request delKey); Uncaught SyntaxError]).
  - apply (deleteKey_unparsable w delKey HdelKey res).
  - reflexivity.
Qed.

Lemma deleteKey_refreshes_network_failure : refreshes deleteKey [Failed] w = Some 0.
Proof.
  eapply (refreshes_from_events _ _ _ _ [Requested (deleteKey_request delKey); Uncaught NetworkError]).
  - apply (deleteKey_network_failure w delKey HdelKey).
  - reflexivity.
Qed.

Lemma clearAll_refreshes_issue : refreshes clearAll [] w = Some 0.
Proof.
  destruct (clearAll_issue_world w) as [_ [He _]].
  now apply (refreshes_from_events _ _ _ (exec clearAll w) [Requested (DELETE "/clear")]).
Qed.

Lemma clearAll_refreshes_response (res : Response) :
  refreshes clearAll [Responded res] w = Some 0.
Proof.
  eapply (refreshes_from_events _ _ _ _ [Requested (DELETE "/clear")]).
  - unfold clearAll. cbn [exec]. run_answers. reflexivity.
  - reflexivity.
Qed.

Lemma clearAll_refreshes_body (res : Response) (data : json) :
  refreshes clearAll [Responded res; Body data] w
  = Some (if ok res && message_shown data then 1 else 0).
Proof.
  unfold message_shown.
  destruct (ok res) eqn:Hok; cbn [andb].
  - destruct (get_prop "message" data) as [message|e] eqn:Hmessage.
    + destruct (toString_value message) as [msg|e] eqn:Hmsg.
      * eapply (refreshes_from_events _ _ _ _
                  [Requested (DELETE "/clear"); Requested (GET "/keys")]).
        -- apply (clearAll_ok w res data message msg); assumption.
        -- cbn [exec events]. rewrite loadKeys_events_after_status.
           now rewrite <- app_assoc.
      * eapply (refreshes_from_events _ _ _ _
                  [Requested (DELETE "/clear"); Uncaught e]).
        -- unfold clearAll. cbn [exec]. run_answers.
           rewrite Hok, Hmessage. cbn [eval]. rewrite Hmsg.
           cbn [eval exec dom suspended events]. reflexivity.
        -- cbn [events]. now rewrite <- app_assoc.
    + eapply (refreshes_from_events _ _ _ _
                [Requested (DELETE "/clear"); Uncaught e]).
      * unfold clearAll. cbn [exec]. run_answers.
        rewrite Hok, Hmessage. cbn [eval exec dom suspended events]. reflexivity.
      * cbn [events]. now rewrite <- app_assoc.
  - eapply (refreshes_from_events _ _ _ _ [Requested (DELETE "/clear")]).
    + apply (clearAll_not_ok w res data Hok).
    + reflexivity.
Qed.

Lemma clearAll_refreshes_unparsable (res : Response) :
  refreshes clearAll [Responded res; Unparsable] w = Some 0.
Proof.
  eapply (refreshes_from_events _ _ _ _
            [Requested (DELETE "/clear"); Uncaught SyntaxError]).
  - apply (clearAll_unparsable w res).
  - reflexivity.
Qed.

Lemma clearAll_refreshes_network_failure : refreshes clearAll [Failed] w = Some 0.
Proof.
  eapply (refreshes_from_events _ _ _ _
            [Requested (DELETE "/clear"); Uncaught NetworkError]).
  - apply (clearAll_network_failure w).
  - reflexivity.
Qed.

End RefreshOrdering.

(** ** The request body of [setKey] *)

Lemma set_request_text_inj (key value t1 t2 : string) :
  set_request_text key value t1 = set_request_text key value t2 ->
  t1 ++ "}" = t2 ++ "}".
Proof.
  unfold set_request_text. intros H.
  repeat (apply append_cancel_l in H).
  exact H.
Qed.

Lemma quote_starts_with_dq (s : string) :
  exists rest, quote s = String (ascii_of_nat 34) rest.
Proof. unfold quote. eexists. reflexivity. Qed.

(** With the key or the value field missing, [setKey] throws before it
    sends anything. *)
Lemma setKey_missing_field (w : World) :
  el_key (dom w) = None \/ el_value (dom w) = None ->
  exec setKey w = mkWorld (dom w) (suspended w) (events w ++ [Uncaught TypeError]).
Proof.
  intros H. unfold setKey. cbn [exec].
  destruct (el_key (dom w)) as [key|]; cbn [valueTrim exec]; [|reflexivity].
  destruct (el_value (dom w)) as [value|]; cbn [valueTrim exec]; [|reflexivity].
  destruct H as [H|H]; discriminate H.
Qed.

(** C4.  In every call of [setKey] in which the TTL field is empty once
    trimmed, the one request sent is a POST to /set whose body writes the
    [ttl] member as [null], and not as [0].  (When the key or the value
    field is missing from the page the call throws and sends no request.) *)
Theorem setKey_empty_ttl_is_null (w : World) (ttl : string) :
  el_ttl (dom w) = Some ttl ->
  trim ttl = EmptyString ->
  match el_key (dom w), el_value (dom w) with
  | Some key, Some value =>
      exists body,
        events (exec setKey w)
        = (events w ++
             [Requested (mkRequest "POST" "/set"
                                   [("Content-Type", "application/json")]
                                   (Some body))])%list
        /\ body = set_request_text (trim key) (trim value) "null"
        /\ body <> set_request_text (trim key) (trim value) "0"
  | _, _ =>
      events (exec setKey w) = (events w ++ [Uncaught TypeError])%list
  end.
Proof.
  intros Httl Hempty.
  destruct (el_key (dom w)) as [key|] eqn:Hkey.
  2:{ rewrite setKey_missing_field by (left; exact Hkey). reflexivity. }
  destruct (el_value (dom w)) as [value|] eqn:Hvalue.
  2:{ rewrite setKey_missing_field by (right; exact Hvalue). reflexivity. }
  destruct (setKey_issue_world w key value ttl Hkey Hvalue Httl) as [_ [Hev _]].
  unfold setKey_request in Hev. rewrite Hempty in Hev. cbn [truthy] in Hev.
  eexists. split; [|split].
  - rewrite Hev. reflexivity.
  - rewrite set_body_text. reflexivity.
  - rewrite set_body_text. intros H.
    apply set_request_text_inj in H. discriminate H.
Qed.

Lemma setKey_empty_ttl_is_null_witness :
  trim "  " = EmptyString /\
  exists body,
    events (exec setKey world0)
    = [Requested (mkRequest "POST" "/set"
                            [("Content-Type", "application/json")]
                            (Some body))]
    /\ body = set_request_text "alpha" "1" "null"
    /\ body <> set_request_text "alpha" "1" "0".
Proof.
  split; [reflexivity|].
  apply (setKey_empty_ttl_is_null world0 "  "); reflexivity.
Defined.

(** C10.  In every call of [setKey] in which the trimmed TTL field is not
    empty and [parseInt] finds no integer at its front, the body of the
    request writes the [ttl] member as [null]: neither [NaN] nor the text
    that was typed is sent.  (When the key or the value field is missing
    from the page the call throws and sends no request.) *)
Theorem setKey_unparsable_ttl_is_null (w : World) (ttl : string) :
  el_ttl (dom w) = Some ttl ->
  trim ttl <> EmptyString ->
  parseInt (trim ttl) = NaN ->
  match el_key (dom w), el_value (dom w) with
  | Some key, Some value =>
      exists body,
        events (exec setKey w)
        = (events w ++
             [Requested (mkRequest "POST" "/set"
                                   [("Content-Type", "application/json")]
                                   (Some body))])%list
        /\ body = set_request_text (trim key) (trim value) "null"
        /\ body <> set_request_text (trim key) (trim value) "NaN"
        /\ body <> set_request_text (trim key) (trim value) (quote (trim ttl))
  | _, _ =>
      events (exec setKey w) = (events w ++ [Uncaught TypeError])%list
  end.
Proof.
  intros Httl Hne Hnan.
  destruct (el_key (dom w)) as [key|] eqn:Hkey.
  2:{ rewrite setKey_missing_field by (left; exact Hkey). reflexivity. }
  destruct (el_value (dom w)) as [value|] eqn:Hvalue.
  2:{ rewrite setKey_missing_field by (right; exact Hvalue). reflexivity. }
  destruct (setKey_issue_world w key value ttl Hkey Hvalue Httl) as [_ [Hev _]].
  assert (Htruthy : truthy (trim ttl) = true).
  { destruct (trim ttl); [now elim Hne | reflexivity]. }
  unfold setKey_request in Hev. rewrite Htruthy, Hnan in Hev.
  eexists. split; [|split; [|split]].
  - rewrite Hev. reflexivity.
  - rewrite set_body_text. reflexivity.
  - rewrite set_body_text. intros H.
    apply set_request_text_inj in H. discriminate H.
  - rewrite set_body_text. intros H.
    apply set_request_text_inj in H.
    destruct (quote_starts_with_dq (trim ttl)) as [rest Hq].
    rewrite Hq in H. discriminate H.
Qed.

Lemma setKey_unparsable_ttl_is_null_witness :
  trim "soon" <> EmptyString /\ parseInt (trim "soon") = NaN /\
  exists body,
    events (exec setKey (mkWorld page_nolist [] []))
    = [Requested (mkRequest "POST" "/set"
                            [("Content-Type", "application/json")]
                            (Some body))]
    /\ body = set_request_text "alpha" "1" "null"
    /\ body <> set_request_text "alpha" "1" "NaN"
    /\ body <> set_request_text "alpha" "1" (quote "soon").
Proof.
  split; [discriminate|]. split; [reflexivity|].
  apply (setKey_unparsable_ttl_is_null (mkWorld page_nolist [] []) "soon");
    try reflexivity; discriminate.
Defined.

(** ** [loadKeys] on a page without the key list *)

(** C9.  With no key-list element on the page, [loadKeys] returns at once:
    the page (so the status line), the parked functions and the observable
    events (so the requests sent) are what they were. *)
Theorem loadKeys_without_list (w : World) :
  el_keysList (dom w) = None ->
  exec loadKeys w = w.
Proof.
  intros H. unfold loadKeys. cbn [exec]. rewrite H. reflexivity.
Qed.

Lemma loadKeys_without_list_witness :
  el_keysList page_nolist = None /\
  exec loadKeys (mkWorld page_nolist [] []) = mkWorld page_nolist [] [].
Proof.
  split; [reflexivity|].
  apply (loadKeys_without_list (mkWorld page_nolist [] [])). reflexivity.
Defined.

(** ** Failures of [getKey] *)

(** C2, counterexample.  The lookup field holds [alpha], the result area
    [old result] and the status line [ready]; the request fails on the
    network.  [getKey] throws: the page is as it was, the result area is
    not set to [Key not found] and no failure status is reported. *)
Lemma getKey_network_failure_renders_nothing :
  answers [Failed] (exec getKey world0)
  = Some (mkWorld page0 []
                  [Requested (GET "/get/alpha"); Uncaught NetworkError])
  /\ el_getResult page0 <> Some "Key not found"
  /\ el_statusBox page0 <> Some (mkStatusBox "❌ Key not found" "red").
Proof.
  split; [reflexivity|]. split; discriminate.
Qed.

(** C2, amended.  On a page that has the lookup field and the result area,
    for every failure response to [getKey] whose body is JSON (the key is
    absent, or the server failed in any other way) the result area is set
    to [Key not found] and the failure status [❌ Key not found] is
    reported: the outcome is the same for all of them.  When the request
    fails on the network, or the body is not JSON, [getKey] throws instead
    and the page is left as it was. *)
Theorem getKey_failure_outcome (w : World) (field out : string) :
  el_getKey (dom w) = Some field ->
  el_getResult (dom w) = Some out ->
  (forall (res : Response) (data : json),
      ok res = false ->
      answers [Responded res; Body data] (exec getKey w)
      = Some (mkWorld
                (showStatus "❌ Key not found" false
                   (set_getResult "Key not found" (dom w)))
                (suspended w)
                (events w ++ [Requested (getKey_request field)])))
  /\ (forall status : StatusBox,
         el_statusBox (dom w) = Some status ->
         el_statusBox (showStatus "❌ Key not found" false
                         (set_getResult "Key not found" (dom w)))
         = Some (mkStatusBox "❌ Key not found" "red"))
  /\ el_getResult (showStatus "❌ Key not found" false
                     (set_getResult "Key not found" (dom w)))
     = Some "Key not found"
  /\ answers [Failed] (exec getKey w)
     = Some (raised NetworkError (getKey_request field) w)
  /\ (forall res : Response,
         answers [Responded res; Unparsable] (exec getKey w)
         = Some (raised SyntaxError (getKey_request field) w)).
Proof.
  intros Hfield Hout. repeat split.
  - intros res data Hok. exact (getKey_not_ok w field out Hfield Hout res data Hok).
  - intros status Hstatus.
    apply (showStatus_shown "❌ Key not found" false _ status). exact Hstatus.
  - now rewrite el_getResult_showStatus.
  - exact (getKey_network_failure w field Hfield).
  - intros res. exact (getKey_unparsable w field Hfield res).
Qed.

Lemma getKey_failure_outcome_witness :
  el_getKey page0 = Some "alpha" /\ el_getResult page0 = Some "old result" /\
  ok (mkResponse 500) = false /\
  answers [Responded (mkResponse 500); Body (JObj [("detail", JStr "disk full")])]
          (exec getKey world0)
  = Some (mkWorld
            (set_statusBox (mkStatusBox "❌ Key not found" "red")
               (set_getResult "Key not found" page0))
            []
            [Requested (GET "/get/alpha")]).
Proof.
  split; [reflexivity|]. split; [reflexivity|]. split; [reflexivity|].
  exact (proj1 (getKey_failure_outcome world0 "alpha" "old result" eq_refl eq_refl)
               (mkResponse 500) (JObj [("detail", JStr "disk full")]) eq_refl).
Defined.

(** ** The error handling of [setKey], [getKey] and [deleteKey] *)






(** ** The failure message of [setKey] and [deleteKey] *)

Lemma or_else_falsy (v : Json.value) (dflt : string) :
  truthy_value v = false ->
  toString_value (or_else v dflt) = Ok dflt.
Proof. intros H. unfold or_else. now rewrite H. Qed.

Lemma or_else_string (s dflt : string) :
  s <> EmptyString ->
  toString_value (or_else (Some (JStr s)) dflt) = Ok s.
Proof.
  intros H. unfold or_else. cbn [truthy_value].
  destruct s; [now elim H | reflexivity].
Qed.

(** C5, counterexample.  A failure response to [setKey] carries the detail
    string that is empty: the status is [❌ Error], not the marker followed
    by that string.  A failure response to [deleteKey] carries a detail that is a
    list of objects, so no detail string: the status is
    [❌ [object Object]], not the generic [❌ Error]. *)
Lemma detail_empty_or_not_a_string :
  answers [Responded (mkResponse 400); Body (JObj [("detail", JStr EmptyString)])]
          (exec setKey world0)
  = Some (mkWorld (set_statusBox (mkStatusBox "❌ Error" "red") page0) []
                  [Requested (setKey_request " alpha " "1" "  ")])
  /\ "❌ Error" <> "❌ " ++ EmptyString
  /\ answers [Responded (mkResponse 422);
              Body (JObj [("detail", JArr [JObj [("msg", JStr "field required")]])])]
             (exec deleteKey world0)
     = Some (mkWorld (set_statusBox (mkStatusBox "❌ [object Object]" "red") page0) []
                     [Requested (DELETE "/delete/alpha")])
  /\ "❌ [object Object]" <> "❌ Error".
Proof.
  split; [reflexivity|]. split; [discriminate|].
  split; [reflexivity|]. discriminate.
Qed.

(** C5, amended.  For every failure response to [setKey] or [deleteKey]
    whose body decodes to a value from which [detail] can be read: when
    [detail] is a non-empty string, the status is that string verbatim
    after the failure marker; when [detail] is absent or falsy ([null],
    [false], [0], the empty string), the status is the generic [Error]
    after the marker; any other detail is shown converted to text.  The
    status is shown as a failure. *)
Theorem failure_detail_message
        (w : World) (key value ttl delField : string) :
  el_key (dom w) = Some key ->
  el_value (dom w) = Some value ->
  el_ttl (dom w) = Some ttl ->
  el_delKey (dom w) = Some delField ->
  forall (res : Response) (data : json) (detail : Json.value),
    ok res = false ->
    get_prop "detail" data = Ok detail ->
    (forall s : string,
        detail = Some (JStr s) -> s <> EmptyString ->
        answers [Responded res; Body data] (exec setKey w)
        = Some (reported ("❌ " ++ s) false (setKey_request key value ttl) w)
        /\ answers [Responded res; Body data] (exec deleteKey w)
           = Some (reported ("❌ " ++ s) false (deleteKey_request delField) w))
    /\ (truthy_value detail = false ->
        answers [Responded res; Body data] (exec setKey w)
        = Some (reported "❌ Error" false (setKey_request key value ttl) w)
        /\ answers [Responded res; Body data] (exec deleteKey w)
           = Some (reported "❌ Error" false (deleteKey_request delField) w))
    /\ (forall text : string,
           truthy_value detail = true ->
           toString_value detail = Ok text ->
           answers [Responded res; Body data] (exec setKey w)
           = Some (reported ("❌ " ++ text) false (setKey_request key value ttl) w)
           /\ answers [Responded res; Body data] (exec deleteKey w)
              = Some (reported ("❌ " ++ text) false (deleteKey_request delField) w)).
Proof.
  intros Hkey Hvalue Httl Hdel res data detail Hok Hdetail.
  split; [|split].
  - intros s -> Hs. split.
    + exact (setKey_not_ok w key value ttl Hkey Hvalue Httl res data _ s
               Hok Hdetail (or_else_string s "Error" Hs)).
    + exact (deleteKey_not_ok w delField Hdel res data _ s
               Hok Hdetail (or_else_string s "Error" Hs)).
  - intros Hfalsy. split.
    + exact (setKey_not_ok w key value ttl Hkey Hvalue Httl res data detail "Error"
               Hok Hdetail (or_else_falsy detail "Error" Hfalsy)).
    + exact (deleteKey_not_ok w delField Hdel res data detail "Error"
               Hok Hdetail (or_else_falsy detail "Error" Hfalsy)).
  - intros text Htruthy Htext.
    assert (Hor : toString_value (or_else detail "Error") = Ok text).
    { unfold or_else. now rewrite Htruthy. }
    split.
    + exact (setKey_not_ok w key value ttl Hkey Hvalue Httl res data detail text
               Hok Hdetail Hor).
    + exact (deleteKey_not_ok w delField Hdel res data detail text
               Hok Hdetail Hor).
Qed.

Lemma failure_detail_message_witness :
  ok (mkResponse 404) = false /\
  get_prop "detail" (JObj [("detail", JStr "Key not found")])
  = Ok (Some (JStr "Key not found")) /\
  "Key not found" <> EmptyString /\
  answers [Responded (mkResponse 404); Body (JObj [("detail", JStr "Key not found")])]
          (exec deleteKey world0)
  = Some (mkWorld (set_statusBox (mkStatusBox "❌ Key not found" "red") page0) []
                  [Requested (DELETE "/delete/alpha")]).
Proof.
  split; [reflexivity|]. split; [reflexivity|]. split; [discriminate|].
  refine (proj2
            (proj1
               (failure_detail_message world0 " alpha " "1" "  " "alpha"
                  eq_refl eq_refl eq_refl eq_refl
                  (mkResponse 404) (JObj [("detail", JStr "Key not found")])
                  (Some (JStr "Key not found")) eq_refl eq_refl)
               "Key not found" eq_refl _)).
  discriminate.
Defined.

(** ** When the key list is refreshed *)

(** C3, counterexample.  [clearAll] receives a successful response (200)
    whose body is the JSON value [null]: the response is judged successful,
    yet building the status text throws and no refresh is issued.
    [deleteKey] receives a successful response (204) whose body is not
    JSON: no refresh is issued either. *)
Lemma success_without_refresh :
  ok (mkResponse 200) = true
  /\ answers [Responded (mkResponse 200); Body JNull] (exec clearAll world0)
     = Some (mkWorld page0 [] [Requested (DELETE "/clear"); Uncaught TypeError])
  /\ refreshes clearAll [Responded (mkResponse 200); Body JNull] world0 = Some 0
  /\ ok (mkResponse 204) = true
  /\ answers [Responded (mkResponse 204); Unparsable] (exec deleteKey world0)
     = Some (mkWorld page0 []
               [Requested (DELETE "/delete/alpha"); Uncaught SyntaxError])
  /\ refreshes deleteKey [Responded (mkResponse 204); Unparsable] world0 = Some 0.
Proof. repeat split. Qed.

(** C3, amended.  On a page that has the key list and the input fields,
    the number of key-list requests a mutating operation sends is as
    follows.  None before its response arrives.  None when the request
    fails or the response indicates failure, whatever the body.  One when
    the response is successful and the operation reaches its call of
    [loadKeys]: for [setKey] as soon as the successful response arrives;
    for [deleteKey] once the body of the successful response is decoded,
    and never if that body is not JSON; for [clearAll] once the body of the
    successful response is decoded and its message can be shown, and never
    if that body is not JSON, is [null] or has a message that cannot be
    converted to text. *)
Theorem refresh_ordering (w : World) (items : list Li)
        (key value ttl delField : string) :
  el_keysList (dom w) = Some items ->
  el_key (dom w) = Some key ->
  el_value (dom w) = Some value ->
  el_ttl (dom w) = Some ttl ->
  el_delKey (dom w) = Some delField ->
  (refreshes setKey [] w = Some 0
   /\ (forall res, refreshes setKey [Responded res] w
                   = Some (if ok res then 1 else 0))
   /\ (forall res data, ok res = false ->
                        refreshes setKey [Responded res; Body data] w = Some 0)
   /\ (forall res, ok res = false ->
                   refreshes setKey [Responded res; Unparsable] w = Some 0)
   /\ refreshes setKey [Failed] w = Some 0)
  /\ (refreshes deleteKey [] w = Some 0
      /\ (forall res, refreshes deleteKey [Responded res] w = Some 0)
      /\ (forall res data, refreshes deleteKey [Responded res; Body data] w
                           = Some (if ok res then 1 else 0))
      /\ (forall res, refreshes deleteKey [Responded res; Unparsable] w = Some 0)
      /\ refreshes deleteKey [Failed] w = Some 0)
  /\ (refreshes clearAll [] w = Some 0
      /\ (forall res, refreshes clearAll [Responded res] w = Some 0)
      /\ (forall res data, refreshes clearAll [Responded res; Body data] w
                           = Some (if ok res && message_shown data then 1 else 0))
      /\ (forall res, refreshes clearAll [Responded res; Unparsable] w = Some 0)
      /\ refreshes clearAll [Failed] w = Some 0).
Proof.
  intros Hlist Hkey Hvalue Httl Hdel.
  split; [|split]; repeat split.
  - exact (setKey_refreshes_issue w key value ttl Hkey Hvalue Httl).
  - exact (setKey_refreshes_response w items key value ttl Hlist Hkey Hvalue Httl).
  - exact (setKey_refreshes_failure_body w key value ttl Hkey Hvalue Httl).
  - exact (setKey_refreshes_failure_unparsable w key value ttl Hkey Hvalue Httl).
  - exact (setKey_refreshes_network_failure w key value ttl Hkey Hvalue Httl).
  - exact (deleteKey_refreshes_issue w delField Hdel).
  - exact (deleteKey_refreshes_response w delField Hdel).
  - exact (deleteKey_refreshes_body w items delField Hlist Hdel).
  - exact (deleteKey_refreshes_unparsable w delField Hdel).
  - exact (deleteKey_refreshes_network_failure w delField Hdel).
  - exact (clearAll_refreshes_issue w).
  - exact (clearAll_refreshes_response w).
  - exact (clearAll_refreshes_body w items Hlist).
  - exact (clearAll_refreshes_unparsable w).
  - exact (clearAll_refreshes_network_failure w).
Qed.

Lemma refresh_ordering_witness :
  el_keysList page0 = Some [mkLi "stale" (JStr "stale")]
  /\ refreshes setKey [] world0 = Some 0
  /\ refreshes setKey [Responded (mkResponse 200)] world0 = Some 1
  /\ refreshes setKey [Responded (mkResponse 422)] world0 = Some 0
  /\ refreshes deleteKey [Responded (mkResponse 200); Body (JObj [])] world0 = Some 1
  /\ refreshes clearAll
       [Responded (mkResponse 200); Body (JObj [("message", JStr "cleared")])]
       world0 = Some 1.
Proof.
  split; [reflexivity|].
  destruct (refresh_ordering world0 [mkLi "stale" (JStr "stale")]
              " alpha " "1" "  " "alpha" eq_refl eq_refl eq_refl eq_refl eq_refl)
    as [[S0 [S1 _]] [[_ [_ [D2 _]]] [_ [_ [C2 _]]]]].
  split; [exact S0|].
  split; [exact (S1 (mkResponse 200))|].
  split; [exact (S1 (mkResponse 422))|].
  split; [exact (D2 (mkResponse 200) (JObj []))|].
  exact (C2 (mkResponse 200) (JObj [("message", JStr "cleared")])).
Defined.

(** ** [clearAll] *)

(** C6, counterexample.  [clearAll] receives a failure response (500) whose
    body is not JSON: it throws before it looks at the success indicator,
    and the status line keeps [ready]; no clear-failure message is
    reported. *)
Lemma clearAll_failure_not_json_reports_nothing :
  ok (mkResponse 500) = false
  /\ answers [Responded (mkResponse 500); Unparsable] (exec clearAll world0)
     = Some (mkWorld page0 []
               [Requested (DELETE "/clear"); Uncaught SyntaxError])
  /\ el_statusBox page0 = Some (mkStatusBox "ready" "green").
Proof. repeat split. Qed.

(** C6, amended.  On a successful response whose body carries a message
    text, [clearAll] reports that message after the success marker, calls
    [loadKeys] and then empties the lookup result; on a page with the key
    list and the result area, the list is emptied, a request for the keys
    is sent and the result area is empty.  On a failure response whose body
    is JSON it reports [❌ Error clearing store], whatever the body holds.
    When the body is not JSON it throws, whatever the success indicator,
    and reports nothing. *)
Theorem clearAll_outcome (w : World) :
  (forall (res : Response) (fields : list (string * json)) (m : string),
      ok res = true ->
      lookup "message" fields = Some (JStr m) ->
      answers [Responded res; Body (JObj fields)] (exec clearAll w)
      = Some (exec (Write clear_out Return)
                (exec loadKeys
                   (reported ("✅ " ++ m) true (DELETE "/clear") w)))
      /\ forall (items : list Li) (out : string),
          el_keysList (dom w) = Some items ->
          el_getResult (dom w) = Some out ->
          exists wf,
            answers [Responded res; Body (JObj fields)] (exec clearAll w) = Some wf
            /\ dom wf = set_getResult EmptyString
                          (set_keysList [] (showStatus ("✅ " ++ m) true (dom w)))
            /\ events wf = (events w ++ [Requested (DELETE "/clear");
                                         Requested (GET "/keys")])%list)
  /\ (forall (res : Response) (data : json),
         ok res = false ->
         answers [Responded res; Body data] (exec clearAll w)
         = Some (reported "❌ Error clearing store" false (DELETE "/clear") w))
  /\ (forall res : Response,
         answers [Responded res; Unparsable] (exec clearAll w)
         = Some (raised SyntaxError (DELETE "/clear") w)).
Proof.
  split; [|split].
  - intros res fields m Hok Hm.
    assert (Hrun : answers [Responded res; Body (JObj fields)] (exec clearAll w)
                   = Some (exec (Write clear_out Return)
                             (exec loadKeys
                                (reported ("✅ " ++ m) true (DELETE "/clear") w)))).
    { apply (clearAll_ok w res (JObj fields) (Some (JStr m)) m Hok).
      - cbn [get_prop]. now rewrite Hm.
      - reflexivity. }
    split; [exact Hrun|].
    intros items out Hitems Hout.
    eexists. split; [exact Hrun|].
    assert (Hlist : el_keysList
                      (dom (reported ("✅ " ++ m) true (DELETE "/clear") w))
                    = Some items).
    { unfold reported. cbn [dom]. now rewrite el_keysList_showStatus. }
    destruct (loadKeys_issue_world _ items Hlist) as [Hd [He _]].
    cbn [exec dom events]. rewrite Hd, He. unfold reported. cbn [dom events].
    split.
    + unfold clear_out. cbn [set_keysList el_getResult].
      rewrite el_getResult_showStatus, Hout. reflexivity.
    + now rewrite <- app_assoc.
  - intros res data Hok. exact (clearAll_not_ok w res data Hok).
  - intros res. exact (clearAll_unparsable w res).
Qed.

Lemma clearAll_outcome_witness :
  ok (mkResponse 200) = true /\ ok (mkResponse 500) = false
  /\ answers [Responded (mkResponse 200); Body (JObj [("message", JStr "Store cleared")])]
             (exec clearAll world0)
     = Some (exec (Write clear_out Return)
               (exec loadKeys
                  (reported "✅ Store cleared" true (DELETE "/clear") world0)))
  /\ answers [Responded (mkResponse 500); Body (JObj [("detail", JStr "disk full")])]
             (exec clearAll world0)
     = Some (reported "❌ Error clearing store" false (DELETE "/clear") world0).
Proof.
  split; [reflexivity|]. split; [reflexivity|].
  destruct (clearAll_outcome world0) as [Hsuccess [Hfailure _]].
  split.
  - exact (proj1 (Hsuccess (mkResponse 200) [("message", JStr "Store cleared")]
                    "Store cleared" eq_refl eq_refl)).
  - exact (Hfailure (mkResponse 500) (JObj [("detail", JStr "disk full")]) eq_refl).
Defined.

(** ** [loadKeys] and the entries it builds *)

Lemma el_getKey_showStatus (msg : string) (b : bool) (d : DOM) :
  el_getKey (showStatus msg b d) = el_getKey d.
Proof. unfold showStatus. now destruct (el_statusBox d). Qed.

Lemma li_innerText_li_of (keys : list string) :
  map li_innerText (map li_of keys) = keys.
Proof.
  induction keys as [|k keys IH]; cbn; [reflexivity|]. now rewrite IH.
Qed.

(** C7, counterexample.  The server returns the single key [a<LF>b], a
    string with a line feed inside and no white space at either end.  The
    entry built for it keeps the key, but a click leaves [ab] in the lookup
    field, the text input dropping the line feed, and the lookup is then
    asked of [fetch] as [/get/ab]: neither the field nor the lookup has the
    key itself. *)
Lemma click_on_key_with_line_break :
  match answers [Responded (mkResponse 200);
                 Body (JObj [("keys", JArr [JStr ("a" ++ newline ++ "b")]);
                             ("count", JNum 1)])]
                (exec loadKeys world0) with
  | Some wf =>
      (el_keysList (dom wf),
       option_map (fun wc => (el_getKey (dom wc), events wc)) (click 0 wf))
  | None => (None, None)
  end
  = (Some [mkLi ("a" ++ newline ++ "b") (JStr ("a" ++ newline ++ "b"))],
     Some (Some "ab", [Requested (GET "/keys"); Requested (GET "/get/ab")]))
  /\ trim ("a" ++ newline ++ "b") = "a" ++ newline ++ "b"
  /\ "ab" <> "a" ++ newline ++ "b".
Proof. split; [reflexivity|]. split; [reflexivity | discriminate]. Qed.

(** C7, amended.  On a page with the key list and the lookup field, in a
    refresh that runs alone: the list is emptied when [loadKeys] is called;
    for every response, of any status, whose body is [{keys, count}] with
    [keys] a list of strings and [count] an integer that a double holds
    exactly, the list then holds exactly one entry per key, in order, each
    showing its key, and the status [✅ Keys loaded (count)] is reported.
    A click on the entry of key [k] puts [k] with its line breaks removed
    in the lookup field and at once calls [getKey], which reads the field
    back, trims it and hands [fetch] the text [/get/] followed by the
    result, with no encoding.  That text is [/get/] followed by [k] itself
    when [k] has no line break and no white space at either end. *)
Theorem loadKeys_rebuilds_and_wires
        (w : World) (items : list Li) (field : string) (res : Response)
        (fields : list (string * json)) (keys : list string) (n : Z) :
  el_keysList (dom w) = Some items ->
  el_getKey (dom w) = Some field ->
  lookup "keys" fields = Some (JArr (map JStr keys)) ->
  lookup "count" fields = Some (JNum n) ->
  safe_integer n ->
  el_keysList (dom (exec loadKeys w)) = Some []
  /\ exists wf,
      answers [Responded res; Body (JObj fields)] (exec loadKeys w) = Some wf
      /\ dom wf = showStatus ("✅ Keys loaded (" ++ string_of_Z n ++ ")") true
                    (set_keysList (map li_of keys) (dom w))
      /\ el_keysList (dom wf) = Some (map li_of keys)
      /\ map li_innerText (map li_of keys) = keys
      /\ forall (i : nat) (k : string),
          nth_error keys i = Some k ->
          exists wc,
            click i wf = Some wc
            /\ wc = exec getKey
                      (mkWorld (set_getKey (input_value k) (dom wf))
                               (suspended wf) (events wf))
            /\ el_getKey (dom wc) = Some (input_value k)
            /\ events wc
               = (events wf
                    ++ [Requested (GET ("/get/" ++ trim (input_value k)))])%list
            /\ (input_value k = k -> trim k = k ->
                el_getKey (dom wc) = Some k
                /\ events wc = (events wf ++ [Requested (GET ("/get/" ++ k))])%list).
Proof.
  intros Hitems Hfield Hkeys Hcount _. split.
  - destruct (loadKeys_issue_world w items Hitems) as [Hd _]. now rewrite Hd.
  - eexists. split.
    { exact (loadKeys_rebuild w items Hitems res fields keys n Hkeys Hcount). }
    cbn [dom suspended events].
    split; [reflexivity|].
    split; [now rewrite el_keysList_showStatus|].
    split; [apply li_innerText_li_of|].
    intros i k Hi.
    eexists. split.
    { apply (click_li_of _ (map li_of keys) i k field).
      - cbn [dom]. now rewrite el_keysList_showStatus.
      - now apply map_nth_error.
      - cbn [dom]. now rewrite el_getKey_showStatus. }
    cbn [dom suspended events].
    split; [reflexivity|].
    match goal with
    | |- context [exec getKey ?W] =>
        destruct (getKey_issue_world W (input_value k) eq_refl) as [Hd [He _]]
    end.
    rewrite Hd, He. cbn [dom events]. unfold getKey_request.
    split; [reflexivity|]. split; [reflexivity|].
    intros Hvalue Htrim. rewrite Hvalue, Htrim. split; reflexivity.
Qed.

Lemma loadKeys_rebuilds_and_wires_witness :
  lookup "keys" [("keys", JArr (map JStr ["alpha"; "beta"])); ("count", JNum 2)]
  = Some (JArr (map JStr ["alpha"; "beta"]))
  /\ safe_integer 2
  /\ el_keysList (dom (exec loadKeys world0)) = Some []
  /\ exists wf,
      answers [Responded (mkResponse 200);
               Body (JObj [("keys", JArr (map JStr ["alpha"; "beta"]));
                           ("count", JNum 2)])]
              (exec loadKeys world0) = Some wf
      /\ el_keysList (dom wf) = Some [li_of "alpha"; li_of "beta"]
      /\ el_statusBox (dom wf) = Some (mkStatusBox "✅ Keys loaded (2)" "green").
Proof.
  split; [reflexivity|].
  assert (Hsafe : safe_integer 2) by (unfold safe_integer; cbn; lia).
  split; [exact Hsafe|].
  destruct (loadKeys_rebuilds_and_wires world0 [mkLi "stale" (JStr "stale")]
              "alpha" (mkResponse 200)
              [("keys", JArr (map JStr ["alpha"; "beta"])); ("count", JNum 2)]
              ["alpha"; "beta"] 2%Z eq_refl eq_refl eq_refl eq_refl Hsafe)
    as [Hcleared [wf [Hrun [Hdom [Hlist _]]]]].
  split; [exact Hcleared|].
  exists wf. split; [exact Hrun|]. split; [exact Hlist|].
  rewrite Hdom. reflexivity.
Defined.

(** ** [compactWAL] *)

Lemma compactWAL_unparsable (w : World) (res : Response) :
  answers [Responded res; Unparsable] (exec compactWAL w)
  = Some (raised SyntaxError (POST "/compact") w).
Proof.
  unfold compactWAL, raised. cbn [exec]. run_answers. now rewrite <- app_assoc.
Qed.

(** C8, counterexample.  [compactWAL] receives a response (500) whose body
    is not JSON: it throws; nothing is acknowledged and the statistics are
    not asked for. *)
Lemma compactWAL_not_json_no_acknowledgment :
  answers [Responded (mkResponse 500); Unparsable] (exec compactWAL world0)
  = Some (mkWorld page0 []
            [Requested (POST "/compact"); Uncaught SyntaxError]).
Proof. reflexivity. Qed.

(** C8, amended.  For every response to [compactWAL], successful or not,
    whose body is a JSON value other than [null] whose message can be shown
    as text (in particular any object whose message is absent or is a
    string): the completion message, which is the message of the body when
    it is truthy and [WAL compacted] otherwise, is surfaced by [alert]; the page, so the status line, is left as it was; after the
    alert the statistics are requested, and once they arrive they are
    written to the statistics box, the status line still untouched.  When
    the body is not JSON, [compactWAL] throws: nothing is acknowledged and
    the statistics are not refreshed. *)
Theorem compactWAL_outcome
        (w : World) (res : Response) (data : json)
        (message : Json.value) (msg : string) :
  get_prop "message" data = Ok message ->
  toString_value (or_else message "WAL compacted") = Ok msg ->
  (forall m : string, message = Some (JStr m) -> m <> EmptyString -> msg = m)
  /\ (truthy_value message = false -> msg = "WAL compacted")
  /\ (exists wf,
         answers [Responded res; Body data] (exec compactWAL w) = Some wf
         /\ wf = exec loadStats
                   (mkWorld (dom w) (suspended w)
                            (events w ++ [Requested (POST "/compact"); Alerted msg]))
         /\ dom wf = dom w
         /\ events wf = (events w ++ [Requested (POST "/compact"); Alerted msg;
                                      Requested (GET "/stats")])%list
         /\ forall (res' : Response) (stats : json) (box : string),
             el_statsBox (dom w) = Some box ->
             exists wf',
               answers [Responded res'; Body stats] wf = Some wf'
               /\ dom wf' = set_statsBox (stringify2 stats) (dom w)
               /\ el_statusBox (dom wf') = el_statusBox (dom w)
               /\ events wf' = events wf)
  /\ (forall res0 : Response,
         answers [Responded res0; Unparsable] (exec compactWAL w)
         = Some (raised SyntaxError (POST "/compact") w)).
Proof.
  intros Hmessage Hmsg. split; [|split; [|split]].
  - intros m -> Hm. rewrite (or_else_string m _ Hm) in Hmsg. now injection Hmsg.
  - intros Hfalsy. rewrite (or_else_falsy _ _ Hfalsy) in Hmsg. now injection Hmsg.
  - eexists. split.
    { exact (compactWAL_done w res data message msg Hmessage Hmsg). }
    split; [reflexivity|].
    match goal with
    | |- context [exec loadStats ?W] =>
        destruct (loadStats_issue_world W) as [Hd [He _]];
        pose proof (loadStats_shown W) as Hshown
    end.
    cbn [dom events suspended] in Hd, He, Hshown.
    split; [exact Hd|].
    split; [rewrite He; now rewrite <- app_assoc|].
    intros res' stats box Hbox.
    eexists. split; [exact (Hshown res' stats box Hbox)|].
    cbn [dom events]. split; [reflexivity|]. split; [reflexivity|].
    now rewrite He.
  - intros res0. exact (compactWAL_unparsable w res0).
Qed.

Lemma compactWAL_outcome_witness :
  get_prop "message" (JObj [("message", JStr "WAL compacted: 3 entries")])
  = Ok (Some (JStr "WAL compacted: 3 entries"))
  /\ exists wf,
      answers [Responded (mkResponse 200);
               Body (JObj [("message", JStr "WAL compacted: 3 entries")])]
              (exec compactWAL world0) = Some wf
      /\ dom wf = page0
      /\ events wf = [Requested (POST "/compact");
                      Alerted "WAL compacted: 3 entries";
                      Requested (GET "/stats")].
Proof.
  split; [reflexivity|].
  destruct (compactWAL_outcome world0 (mkResponse 200)
              (JObj [("message", JStr "WAL compacted: 3 entries")])
              (Some (JStr "WAL compacted: 3 entries"))
              "WAL compacted: 3 entries" eq_refl eq_refl)
    as [_ [_ [[wf [Hrun [_ [Hdom [Hev _]]]]] _]]].
  exists wf. split; [exact Hrun|]. split; [exact Hdom|]. exact Hev.
Defined.

(** ** Refreshes in flight together *)

(** The list is emptied when [loadKeys] is called and filled when its
    answer is decoded.  Two refreshes in flight together each empty it
    first and each append later: the keys appear twice. *)
Example overlapping_refreshes_accumulate :
  option_map (fun w' => el_keysList (dom w'))
    (deliveries
       [(0, Responded (mkResponse 200));
        (1, Body (JObj [("keys", JArr [JStr "alpha"]); ("count", JNum 1)]));
        (0, Responded (mkResponse 200));
        (0, Body (JObj [("keys", JArr [JStr "alpha"]); ("count", JNum 1)]))]
       (exec loadKeys (exec loadKeys world0)))
  = Some (Some [li_of "alpha"; li_of "alpha"]).
Proof. reflexivity. Qed.

(** * Further properties of the script *)

(** ** Trimming *)

Lemma codes_bounded (s : string) : Forall (fun c => c < 256) (codes s).
Proof.
  unfold codes. apply Forall_forall. intros c Hc.
  apply in_map_iff in Hc. destruct Hc as [a [<- _]]. apply nat_ascii_bounded.
Qed.

Lemma codes_bytes (l : list nat) :
  Forall (fun c => c < 256) l -> codes (bytes l) = l.
Proof.
  intros H. unfold codes, bytes.
  rewrite list_ascii_of_string_of_list_ascii, map_map.
  induction H as [|c l Hc _ IH]; cbn [map]; [reflexivity|].
  now rewrite nat_ascii_embedding, IH.
Qed.

Lemma bytes_codes (s : string) : bytes (codes s) = s.
Proof.
  unfold codes, bytes. rewrite map_map.
  rewrite (map_ext _ (fun a => a)) by apply ascii_nat_embedding.
  rewrite map_id. apply string_of_list_ascii_of_string.
Qed.

Lemma strip_prefix_app (p l r : list nat) :
  strip_prefix p l = Some r -> l = (p ++ r)%list.
Proof.
  revert l. induction p as [|a p IH]; intros l H; cbn in H.
  - now injection H as ->.
  - destruct l as [|b l]; [discriminate|].
    destruct (Nat.eqb a b) eqn:E; [|discriminate].
    apply Nat.eqb_eq in E. subst b. cbn. f_equal. now apply IH.
Qed.

Lemma strip_prefix_extend (p l r x : list nat) :
  strip_prefix p l = Some r -> strip_prefix p (l ++ x) = Some (r ++ x)%list.
Proof.
  revert l. induction p as [|a p IH]; intros l H; cbn in H.
  - injection H as ->. reflexivity.
  - destruct l as [|b l]; [discriminate|]. cbn.
    destruct (Nat.eqb a b); [now apply IH | discriminate].
Qed.

Lemma strip_one_app (seqs : list (list nat)) (l r : list nat) :
  strip_one seqs l = Some r -> exists p, In p seqs /\ l = (p ++ r)%list.
Proof.
  induction seqs as [|p seqs IH]; cbn; [discriminate|].
  destruct (strip_prefix p l) as [r'|] eqn:E.
  - intros H. injection H as ->. exists p. split; [now left|].
    now apply strip_prefix_app.
  - intros H. destruct (IH H) as [q [Hq Hl]]. exists q. split; [now right|exact Hl].
Qed.

(** A sequence that starts with none of [seqs] has no prefix that does. *)
Lemma strip_one_none_prefix (seqs : list (list nat)) (l x : list nat) :
  strip_one seqs (l ++ x) = None -> strip_one seqs l = None.
Proof.
  induction seqs as [|p seqs IH]; cbn; [reflexivity|].
  destruct (strip_prefix p l) as [r|] eqn:E.
  - rewrite (strip_prefix_extend _ _ _ x E). discriminate.
  - destruct (strip_prefix p (l ++ x)); [discriminate|]. exact IH.
Qed.

Lemma strip_all_suffix (fuel : nat) (seqs : list (list nat)) (l : list nat) :
  exists pre, l = (pre ++ strip_all fuel seqs l)%list.
Proof.
  revert l. induction fuel as [|fuel IH]; intros l; cbn.
  - now exists [].
  - destruct (strip_one seqs l) as [r|] eqn:E; [|now exists []].
    destruct (strip_one_app _ _ _ E) as [p [_ ->]].
    destruct (IH r) as [pre Hpre]. exists (p ++ pre)%list.
    rewrite <- app_assoc. now f_equal.
Qed.

(** With fuel for every element, stripping stops only when nothing of
    [seqs] is left at the front. *)
Lemma strip_all_done (seqs : list (list nat)) :
  Forall (fun p => p <> []) seqs ->
  forall (fuel : nat) (l : list nat),
    List.length l <= fuel ->
    strip_one seqs (strip_all fuel seqs l) = None.
Proof.
  intros Hne. induction fuel as [|fuel IH]; intros l Hlen; cbn.
  - destruct l; [|cbn in Hlen; lia].
    clear Hlen. induction Hne as [|p seqs Hp _ IHs]; cbn; [reflexivity|].
    destruct p; [now elim Hp|]. cbn. exact IHs.
  - destruct (strip_one seqs l) as [r|] eqn:E; [|exact E].
    apply IH. destruct (strip_one_app _ _ _ E) as [p [Hin ->]].
    rewrite Forall_forall in Hne. specialize (Hne p Hin).
    destruct p; [now elim Hne|]. rewrite length_app in Hlen. cbn in Hlen. lia.
Qed.

Lemma strip_all_noop (fuel : nat) (seqs : list (list nat)) (l : list nat) :
  strip_one seqs l = None -> strip_all fuel seqs l = l.
Proof. intros H. destruct fuel; cbn; [reflexivity|]. now rewrite H. Qed.

Lemma whiteSpace_nonempty : Forall (fun p : list nat => p <> []) whiteSpace.
Proof. unfold whiteSpace. repeat constructor; discriminate. Qed.

Lemma whiteSpace_rev_nonempty :
  Forall (fun p : list nat => p <> []) (map (@rev nat) whiteSpace).
Proof. unfold whiteSpace. cbn. repeat constructor; discriminate. Qed.

(** The codes of a trimmed string start and end with no white space. *)
Lemma trim_codes_clean (l : list nat) :
  let t := trimEnd_codes (trimStart_codes l) in
  strip_one whiteSpace t = None
  /\ strip_one (map (@rev nat) whiteSpace) (rev t) = None
  /\ exists pre post, l = (pre ++ t ++ post)%list.
Proof.
  cbn zeta. unfold trimEnd_codes.
  set (a := trimStart_codes l).
  assert (Ha : strip_one whiteSpace a = None).
  { apply strip_all_done; [apply whiteSpace_nonempty | reflexivity]. }
  destruct (strip_all_suffix (List.length l) whiteSpace l) as [pre Hpre].
  fold (trimStart_codes l) in Hpre. fold a in Hpre.
  destruct (strip_all_suffix (List.length a) (map (@rev nat) whiteSpace) (rev a))
    as [post Hpost].
  set (b := strip_all (List.length a) (map (@rev nat) whiteSpace) (rev a)) in *.
  assert (Hab : a = (rev b ++ rev post)%list).
  { rewrite <- rev_app_distr, <- Hpost. now rewrite rev_involutive. }
  split; [|split].
  - apply (strip_one_none_prefix _ _ (rev post)). now rewrite <- Hab.
  - rewrite rev_involutive. apply strip_all_done.
    + apply whiteSpace_rev_nonempty.
    + now rewrite length_rev.
  - exists pre, (rev post). now rewrite <- Hab.
Qed.

Lemma trim_codes_fixed (t : list nat) :
  strip_one whiteSpace t = None ->
  strip_one (map (@rev nat) whiteSpace) (rev t) = None ->
  trimEnd_codes (trimStart_codes t) = t.
Proof.
  intros Hs He. unfold trimStart_codes. rewrite (strip_all_noop _ _ _ Hs).
  unfold trimEnd_codes. rewrite (strip_all_noop _ _ _ He).
  apply rev_involutive.
Qed.

(** Trimming a trimmed string changes nothing. *)
Lemma trim_idempotent (s : string) : trim (trim s) = trim s.
Proof.
  unfold trim at 1.
  destruct (trim_codes_clean (codes s)) as [Hs [He [pre [post Hl]]]].
  assert (Hb : Forall (fun c => c < 256) (trimEnd_codes (trimStart_codes (codes s)))).
  { pose proof (codes_bounded s) as H. rewrite Hl in H.
    apply Forall_app in H. destruct H as [_ H].
    apply Forall_app in H. now destruct H. }
  unfold trim. rewrite (codes_bytes _ Hb).
  now rewrite (trim_codes_fixed _ Hs He).
Qed.

(** A string with no white space at either end is its own trimming. *)
Lemma trim_fixed (s : string) :
  strip_one whiteSpace (codes s) = None ->
  strip_one (map (@rev nat) whiteSpace) (rev (codes s)) = None ->
  trim s = s.
Proof.
  intros Hs He. unfold trim. rewrite (trim_codes_fixed _ Hs He).
  apply bytes_codes.
Qed.

(** ** The status line *)

Lemma showStatus_overwrites (m1 m2 : string) (b1 b2 : bool) (d : DOM) :
  showStatus m2 b2 (showStatus m1 b1 d) = showStatus m2 b2 d.
Proof. unfold showStatus. now destruct (el_statusBox d) eqn:E; cbn; rewrite ?E. Qed.

Lemma showStatus_over_keysList (m1 m2 : string) (b1 b2 : bool)
      (items : list Li) (d : DOM) :
  showStatus m2 b2 (set_keysList items (showStatus m1 b1 d))
  = showStatus m2 b2 (set_keysList items d).
Proof. unfold showStatus. now destruct (el_statusBox d) eqn:E; cbn; rewrite ?E. Qed.

Lemma set_keysList_over (l1 l2 : list Li) (d : DOM) :
  set_keysList l2 (set_keysList l1 d) = set_keysList l2 d.
Proof. reflexivity. Qed.

Lemma set_keysList_showStatus (m : string) (b : bool) (items : list Li) (d : DOM) :
  set_keysList items (showStatus m b d) = showStatus m b (set_keysList items d).
Proof. unfold showStatus. now destruct (el_statusBox d) eqn:E; cbn; rewrite ?E. Qed.

(** X1.  [showStatus] writes the whole status line, so the last call wins:
    a second message replaces the first, text and colour, and the colour is
    green exactly for a success.  No other element is touched, and a page
    without the status box is left as it is. *)
Theorem showStatus_last_writer_wins
        (d : DOM) (m1 m2 : string) (b1 b2 : bool) :
  showStatus m2 b2 (showStatus m1 b1 d) = showStatus m2 b2 d
  /\ (el_statusBox d = None -> showStatus m1 b1 d = d)
  /\ (el_statusBox d <> None ->
      el_statusBox (showStatus m1 b1 d)
      = Some (mkStatusBox m1 (if b1 then "green" else "red")))
  /\ el_key (showStatus m1 b1 d) = el_key d
  /\ el_value (showStatus m1 b1 d) = el_value d
  /\ el_ttl (showStatus m1 b1 d) = el_ttl d
  /\ el_getKey (showStatus m1 b1 d) = el_getKey d
  /\ el_getResult (showStatus m1 b1 d) = el_getResult d
  /\ el_delKey (showStatus m1 b1 d) = el_delKey d
  /\ el_keysList (showStatus m1 b1 d) = el_keysList d
  /\ el_statsBox (showStatus m1 b1 d) = el_statsBox d.
Proof.
  split; [apply showStatus_overwrites|].
  unfold showStatus. destruct (el_statusBox d) as [sb|]; cbn.
  - repeat split. intros H. discriminate H.
  - repeat split. intros H. now elim H.
Qed.

(** ** Delivering to any parked function *)

Lemma deliver_at (w : World) (pre post : list Suspended) (s : Suspended)
      (inp : Input) (t : Async) :
  suspended w = (pre ++ s :: post)%list ->
  resume s inp = Some t ->
  deliver (List.length pre) inp w
  = Some (exec t (mkWorld (dom w) (pre ++ post) (events w))).
Proof.
  intros Hs Hr. unfold deliver. rewrite Hs.
  rewrite nth_error_app2 by lia. rewrite Nat.sub_diag. cbn [nth_error].
  rewrite Hr.
  rewrite firstn_app, firstn_all, Nat.sub_diag. cbn [firstn].
  rewrite app_nil_r.
  rewrite skipn_app, skipn_all2 by lia.
  replace (S (List.length pre) - List.length pre) with 1 by lia.
  reflexivity.
Qed.

Lemma answers_app (l1 l2 : list Input) (w : World) :
  answers (l1 ++ l2) w
  = match answers l1 w with
    | Some w' => answers l2 w'
    | None => None
    end.
Proof.
  revert w. induction l1 as [|inp l1 IH]; intros w; cbn [app answers].
  - reflexivity.
  - destruct (answer inp w); [apply IH | reflexivity].
Qed.

(** ** Before the answer *)

(** X2.  On a page with the input fields and the key list, every operation
    starts by sending exactly one request and parking; until the answer
    arrives the page is as it was.  [loadKeys] alone changes the page at
    once, and only by emptying the list.  Nothing is validated: the request
    goes out whatever the fields hold, empty text included. *)
Theorem operations_start
        (w : World) (items : list Li) (key value ttl field delField : string) :
  el_keysList (dom w) = Some items ->
  el_key (dom w) = Some key ->
  el_value (dom w) = Some value ->
  el_ttl (dom w) = Some ttl ->
  el_getKey (dom w) = Some field ->
  el_delKey (dom w) = Some delField ->
  let started (op : Async) (page : DOM) (rq : Request) : Prop :=
    dom (exec op w) = page
    /\ events (exec op w) = (events w ++ [Requested rq])%list
    /\ List.length (suspended (exec op w)) = S (List.length (suspended w)) in
  started setKey (dom w) (setKey_request key value ttl)
  /\ started getKey (dom w) (getKey_request field)
  /\ started deleteKey (dom w) (deleteKey_request delField)
  /\ started clearAll (dom w) (DELETE "/clear")
  /\ started loadStats (dom w) (GET "/stats")
  /\ started compactWAL (dom w) (POST "/compact")
  /\ started loadKeys (set_keysList [] (dom w)) (GET "/keys").
Proof.
  intros Hitems Hkey Hvalue Httl Hfield Hdel. cbn zeta.
  split; [exact (setKey_issue_world w key value ttl Hkey Hvalue Httl)|].
  split; [exact (getKey_issue_world w field Hfield)|].
  split; [exact (deleteKey_issue_world w delField Hdel)|].
  split; [exact (clearAll_issue_world w)|].
  split; [exact (loadStats_issue_world w)|].
  split; [|exact (loadKeys_issue_world w items Hitems)].
  unfold compactWAL. cbn [exec dom events suspended]. rewrite length_app.
  cbn [List.length]. repeat split; lia.
Qed.

Lemma operations_start_witness :
  el_key page0 = Some " alpha " /\
  events (exec deleteKey world0) = [Requested (DELETE "/delete/alpha")]
  /\ dom (exec deleteKey world0) = page0
  /\ dom (exec loadKeys world0) = set_keysList [] page0.
Proof.
  split; [reflexivity|].
  destruct (operations_start world0 [mkLi "stale" (JStr "stale")]
              " alpha " "1" "  " "alpha" "alpha"
              eq_refl eq_refl eq_refl eq_refl eq_refl eq_refl)
    as [_ [_ [[Hd [He _]] [_ [_ [_ [Hl _]]]]]]].
  split; [exact He|]. split; [exact Hd | exact Hl].
Defined.

(** ** Missing elements *)

Lemma setKey_missing_ttl (w : World) (key value : string) :
  el_key (dom w) = Some key ->
  el_value (dom w) = Some value ->
  el_ttl (dom w) = None ->
  exec setKey w = mkWorld (dom w) (suspended w) (events w ++ [Uncaught TypeError]).
Proof.
  intros Hkey Hvalue Httl. unfold setKey. cbn [exec].
  rewrite Hkey, Hvalue, Httl. reflexivity.
Qed.

(** X3.  An operation whose input field is missing from the page throws a
    [TypeError] before it sends anything: the page and the parked functions
    are as they were and no request goes out.  This holds for [setKey]
    (key, value or TTL field), [getKey], [deleteKey] and the click handler
    of a list entry (lookup field). *)
Theorem missing_input_throws_first (w : World) :
  let thrown := mkWorld (dom w) (suspended w) (events w ++ [Uncaught TypeError]) in
  (el_key (dom w) = None \/ el_value (dom w) = None \/ el_ttl (dom w) = None ->
   exec setKey w = thrown)
  /\ (el_getKey (dom w) = None -> exec getKey w = thrown)
  /\ (el_delKey (dom w) = None -> exec deleteKey w = thrown)
  /\ (forall (items : list Li) (i : nat) (li : Li),
         el_keysList (dom w) = Some items ->
         nth_error items i = Some li ->
         el_getKey (dom w) = None ->
         click i w = Some thrown).
Proof.
  cbn zeta. split; [|split; [|split]].
  - intros [H|[H|H]].
    + apply setKey_missing_field. now left.
    + apply setKey_missing_field. now right.
    + destruct (el_key (dom w)) as [key|] eqn:Hkey;
        [|apply setKey_missing_field; now left].
      destruct (el_value (dom w)) as [value|] eqn:Hvalue;
        [|apply setKey_missing_field; now right].
      exact (setKey_missing_ttl w key value Hkey Hvalue H).
  - intros H. unfold getKey. cbn [exec]. rewrite H. reflexivity.
  - intros H. unfold deleteKey. cbn [exec]. rewrite H. reflexivity.
  - intros items i li Hitems Hi H. unfold click. rewrite Hitems, Hi.
    unfold onclick. cbn [exec]. rewrite H. reflexivity.
Qed.

(** ** The TTL that is sent *)

(** X4.  When the trimmed TTL text is not empty and [parseInt] reads an
    integer at its front, of magnitude below 2^53 (so that the number the
    source computes is that integer exactly), that integer is what the
    request carries, as a JSON number written in decimal: the rest of the
    text is dropped, and the sign and the value are not checked (zero and
    negative numbers are sent as typed). *)
Theorem setKey_sends_parsed_ttl (w : World) (key value ttl : string) (z : Z) :
  el_key (dom w) = Some key ->
  el_value (dom w) = Some value ->
  el_ttl (dom w) = Some ttl ->
  trim ttl <> EmptyString ->
  parseInt (trim ttl) = Int z ->
  safe_integer z ->
  exists body,
    events (exec setKey w)
    = (events w ++
         [Requested (mkRequest "POST" "/set"
                               [("Content-Type", "application/json")]
                               (Some body))])%list
    /\ body = set_request_text (trim key) (trim value) (string_of_Z z).
Proof.
  intros Hkey Hvalue Httl Hne Hint _.
  destruct (setKey_issue_world w key value ttl Hkey Hvalue Httl) as [_ [Hev _]].
  assert (Htruthy : truthy (trim ttl) = true).
  { destruct (trim ttl); [now elim Hne | reflexivity]. }
  unfold setKey_request in Hev. rewrite Htruthy, Hint in Hev.
  eexists. split; [rewrite Hev; reflexivity|].
  rewrite set_body_text. reflexivity.
Qed.

Lemma setKey_sends_parsed_ttl_witness :
  trim " -12px " <> EmptyString /\ parseInt (trim " -12px ") = Int (-12) /\
  safe_integer (-12) /\
  exists body,
    events (exec setKey
              (mkWorld (mkDOM None (Some "k") (Some "v") (Some " -12px ")
                              None None None None None) [] []))
    = [Requested (mkRequest "POST" "/set"
                            [("Content-Type", "application/json")]
                            (Some body))]
    /\ body = set_request_text "k" "v" "-12".
Proof.
  split; [discriminate|]. split; [reflexivity|].
  assert (Hsafe : safe_integer (-12)) by (unfold safe_integer; cbn; lia).
  split; [exact Hsafe|].
  apply (setKey_sends_parsed_ttl
           (mkWorld (mkDOM None (Some "k") (Some "v") (Some " -12px ")
                           None None None None None) [] [])
           "k" "v" " -12px " (-12)%Z); try reflexivity; try exact Hsafe;
    discriminate.
Defined.

(** ** From a stored key to its lookup *)

(** A click on the [i]-th entry once a refresh that ran alone has rebuilt
    the list from string keys. *)
Lemma click_after_rebuild
      (w : World) (items : list Li) (field : string) (res : Response)
      (fields : list (string * json)) (keys : list string) (n : Z)
      (i : nat) (k : string) :
  el_keysList (dom w) = Some items ->
  el_getKey (dom w) = Some field ->
  lookup "keys" fields = Some (JArr (map JStr keys)) ->
  lookup "count" fields = Some (JNum n) ->
  nth_error keys i = Some k ->
  exists wf wc,
    answers [Responded res; Body (JObj fields)] (exec loadKeys w) = Some wf
    /\ click i wf = Some wc
    /\ el_getKey (dom wc) = Some (input_value k)
    /\ events wc
       = (events wf ++ [Requested (GET ("/get/" ++ trim (input_value k)))])%list.
Proof.
  intros Hitems Hfield Hkeys Hcount Hi.
  eexists. eexists. split.
  { exact (loadKeys_rebuild w items Hitems res fields keys n Hkeys Hcount). }
  split.
  { apply (click_li_of _ (map li_of keys) i k field).
    - cbn [dom]. now rewrite el_keysList_showStatus.
    - now apply map_nth_error.
    - cbn [dom]. now rewrite el_getKey_showStatus. }
  match goal with
  | |- context [exec getKey ?W] =>
      destruct (getKey_issue_world W (input_value k) eq_refl) as [Hd [He _]]
  end.
  rewrite Hd, He. cbn [dom events]. split; reflexivity.
Qed.

(** A text input leaves a plain key as it is. *)
Lemma input_value_plain (k : string) :
  plain_key k = true -> input_value k = k.
Proof.
  unfold plain_key, input_value. intros H.
  rewrite <- (bytes_codes k) at 2. f_equal.
  induction (codes k) as [|c l IH]; cbn [filter forallb] in *; [reflexivity|].
  apply andb_true_iff in H. destruct H as [Hc Hl].
  assert (Hkeep : negb (Nat.eqb c 10 || Nat.eqb c 13) = true).
  { destruct (Nat.eqb c 10) eqn:E10.
    - apply Nat.eqb_eq in E10. subst c. discriminate Hc.
    - destruct (Nat.eqb c 13) eqn:E13; [|reflexivity].
      apply Nat.eqb_eq in E13. subst c. discriminate Hc. }
  rewrite Hkeep. cbn [filter]. f_equal. now apply IH.
Qed.

(** X5.  A key goes out of [setKey] trimmed, and trimming is idempotent.
    So for a key made of ASCII letters, digits, hyphens and underscores
    only, which neither the input field nor the parsing of a URL alters, a
    key stored through this page is found again by a click: when a later
    refresh lists it, the click fills the lookup field with it and hands
    [fetch] the text [/get/] followed by exactly the key that [setKey] put
    in its request body. *)
Theorem stored_key_found_by_click
        (w : World) (items : list Li) (typed value ttl field : string)
        (res : Response) (fields : list (string * json))
        (keys : list string) (n : Z) (i : nat) :
  el_key (dom w) = Some typed ->
  el_value (dom w) = Some value ->
  el_ttl (dom w) = Some ttl ->
  el_keysList (dom w) = Some items ->
  el_getKey (dom w) = Some field ->
  plain_key (trim typed) = true ->
  lookup "keys" fields = Some (JArr (map JStr keys)) ->
  lookup "count" fields = Some (JNum n) ->
  nth_error keys i = Some (trim typed) ->
  (exists ttl_text,
      events (exec setKey w)
      = (events w ++
           [Requested
              (mkRequest "POST" "/set" [("Content-Type", "application/json")]
                 (Some (set_request_text (trim typed) (trim value) ttl_text)))])%list)
  /\ exists wf wc,
      answers [Responded res; Body (JObj fields)] (exec loadKeys w) = Some wf
      /\ click i wf = Some wc
      /\ el_getKey (dom wc) = Some (trim typed)
      /\ events wc = (events wf ++ [Requested (GET ("/get/" ++ trim typed))])%list.
Proof.
  intros Hkey Hvalue Httl Hitems Hfield Hplain Hkeys Hcount Hi. split.
  - destruct (setKey_issue_world w typed value ttl Hkey Hvalue Httl) as [_ [Hev _]].
    eexists. rewrite Hev. unfold setKey_request, POST_json.
    rewrite set_body_text. reflexivity.
  - destruct (click_after_rebuild w items field res fields keys n i (trim typed)
                Hitems Hfield Hkeys Hcount Hi) as [wf [wc [Hrun [Hclick [Hfilled Hev]]]]].
    exists wf, wc.
    rewrite (input_value_plain _ Hplain) in Hfilled, Hev.
    rewrite trim_idempotent in Hev. now repeat split.
Qed.

Lemma stored_key_found_by_click_witness :
  plain_key (trim " alpha ") = true /\
  nth_error ["beta"; "alpha"] 1 = Some (trim " alpha ") /\
  exists wf wc,
    answers [Responded (mkResponse 200);
             Body (JObj [("keys", JArr (map JStr ["beta"; "alpha"]));
                         ("count", JNum 2)])]
            (exec loadKeys world0) = Some wf
    /\ click 1 wf = Some wc
    /\ el_getKey (dom wc) = Some "alpha"
    /\ events wc = (events wf ++ [Requested (GET "/get/alpha")])%list.
Proof.
  split; [reflexivity|]. split; [reflexivity|].
  exact (proj2 (stored_key_found_by_click world0 [mkLi "stale" (JStr "stale")]
                  " alpha " "1" "  " "alpha" (mkResponse 200)
                  [("keys", JArr (map JStr ["beta"; "alpha"])); ("count", JNum 2)]
                  ["beta"; "alpha"] 2%Z 1
                  eq_refl eq_refl eq_refl eq_refl eq_refl eq_refl eq_refl eq_refl
                  eq_refl)).
Defined.

(** ** A mutation and the refresh it starts *)

Lemma answers_one (inp : Input) (w : World) : answers [inp] w = answer inp w.
Proof. cbn [answers]. now destruct (answer inp w). Qed.

(** The two named continuations are the ones [loadKeys] parks. *)
Lemma loadKeys_unfold :
  loadKeys
  = Read (fun d =>
      match el_keysList d with
      | None => Return
      | Some _ =>
          Write (set_keysList []) (AwaitFetch (GET "/keys") loadKeys_then)
      end).
Proof. reflexivity. Qed.

Lemma loadKeys_exec (W : World) (items : list Li) :
  el_keysList (dom W) = Some items ->
  exec loadKeys W
  = mkWorld (set_keysList [] (dom W))
            (suspended W ++ [OnResponse (GET "/keys") loadKeys_then])
            (events W ++ [Requested (GET "/keys")]).
Proof.
  intros H. rewrite loadKeys_unfold. cbn [exec]. rewrite H. reflexivity.
Qed.

Lemma loadKeys_finish_exec (X : World) (cur : list Li)
      (fields : list (string * json)) (keys : list string) (n : Z) :
  el_keysList (dom X) = Some cur ->
  lookup "keys" fields = Some (JArr (map JStr keys)) ->
  lookup "count" fields = Some (JNum n) ->
  exec (loadKeys_finish (JObj fields)) X
  = mkWorld (showStatus ("✅ Keys loaded (" ++ string_of_Z n ++ ")") true
               (set_keysList (cur ++ map li_of keys) (dom X)))
            (suspended X) (events X).
Proof.
  intros Hcur Hkeys Hcount. unfold loadKeys_finish.
  cbn [get_prop eval]. rewrite Hkeys.
  rewrite (forEach_key_strings keys _ _ cur Hcur).
  rewrite Hcount. cbn [eval exec toString_value toString dom suspended events].
  reflexivity.
Qed.

Lemma clear_out_over (m1 m2 : string) (b1 b2 : bool) (l1 l2 : list Li) (d : DOM) :
  showStatus m2 b2
    (set_keysList l2 (clear_out (set_keysList l1 (showStatus m1 b1 d))))
  = showStatus m2 b2 (set_keysList l2 (clear_out d)).
Proof.
  unfold showStatus, clear_out.
  destruct (el_statusBox d) eqn:Es, (el_getResult d) eqn:Er; cbn;
    rewrite ?Es, ?Er; cbn; rewrite ?Es; reflexivity.
Qed.

(** X6.  Once a successful mutation and the refresh it starts have both
    been answered, the page is the one a bare refresh gives: the list holds
    the keys the server returned and the status line reads
    [✅ Keys loaded (count)].  The success message of the mutation itself
    ([Key saved successfully], [Key deleted: ...], the clear confirmation)
    has been overwritten; after [clearAll] the lookup result is empty. *)
Theorem mutation_then_refresh
        (w : World) (items : list Li) (key value ttl delField : string)
        (res res' : Response) (fields : list (string * json))
        (keys : list string) (n : Z) :
  el_keysList (dom w) = Some items ->
  el_key (dom w) = Some key ->
  el_value (dom w) = Some value ->
  el_ttl (dom w) = Some ttl ->
  el_delKey (dom w) = Some delField ->
  ok res = true ->
  lookup "keys" fields = Some (JArr (map JStr keys)) ->
  lookup "count" fields = Some (JNum n) ->
  let loaded (d : DOM) : DOM :=
    showStatus ("✅ Keys loaded (" ++ string_of_Z n ++ ")") true
      (set_keysList (map li_of keys) d) in
  answers [Responded res; Responded res'; Body (JObj fields)] (exec setKey w)
  = Some (mkWorld (loaded (dom w)) (suspended w)
            (events w ++ [Requested (setKey_request key value ttl);
                          Requested (GET "/keys")]))
  /\ (forall data : json,
         answers [Responded res; Body data; Responded res'; Body (JObj fields)]
                 (exec deleteKey w)
         = Some (mkWorld (loaded (dom w)) (suspended w)
                   (events w ++ [Requested (deleteKey_request delField);
                                 Requested (GET "/keys")])))
  /\ (forall data : json,
         message_shown data = true ->
         answers [Responded res; Body data; Responded res'; Body (JObj fields)]
                 (exec clearAll w)
         = Some (mkWorld (loaded (clear_out (dom w))) (suspended w)
                   (events w ++ [Requested (DELETE "/clear");
                                 Requested (GET "/keys")]))).
Proof.
  intros Hitems Hkey Hvalue Httl Hdel Hok Hkeys Hcount. cbn zeta.
  assert (Hlist : forall m b, el_keysList (showStatus m b (dom w)) = Some items).
  { intros m b. now rewrite el_keysList_showStatus. }
  split; [|split].
  - change [Responded res; Responded res'; Body (JObj fields)]
      with ([Responded res] ++ [Responded res'; Body (JObj fields)])%list.
    rewrite answers_app, answers_one.
    rewrite (setKey_ok w key value ttl Hkey Hvalue Httl res Hok).
    rewrite (loadKeys_exec _ items) by apply Hlist.
    cbn [dom suspended events]. run_answers. unfold loadKeys_then. cbn [exec].
    run_answers.
    rewrite (loadKeys_finish_exec _ [] fields keys n) by reflexivity || assumption.
    cbn [dom suspended events app].
    rewrite set_keysList_over, showStatus_over_keysList, <- app_assoc.
    reflexivity.
  - intros data.
    change [Responded res; Body data; Responded res'; Body (JObj fields)]
      with ([Responded res; Body data] ++ [Responded res'; Body (JObj fields)])%list.
    rewrite answers_app.
    rewrite (deleteKey_ok w delField Hdel res data Hok).
    rewrite (loadKeys_exec _ items) by apply Hlist.
    cbn [dom suspended events]. run_answers. unfold loadKeys_then. cbn [exec].
    run_answers.
    rewrite (loadKeys_finish_exec _ [] fields keys n) by reflexivity || assumption.
    cbn [dom suspended events app].
    rewrite set_keysList_over, showStatus_over_keysList, <- app_assoc.
    reflexivity.
  - intros data Hshown. unfold message_shown in Hshown.
    destruct (get_prop "message" data) as [message|] eqn:Hmessage; [|discriminate].
    destruct (toString_value message) as [msg|] eqn:Hmsg; [|discriminate].
    change [Responded res; Body data; Responded res'; Body (JObj fields)]
      with ([Responded res; Body data] ++ [Responded res'; Body (JObj fields)])%list.
    rewrite answers_app.
    rewrite (clearAll_ok w res data message msg Hok Hmessage Hmsg).
    rewrite (loadKeys_exec _ items) by apply Hlist.
    cbn [exec dom suspended events]. run_answers. unfold loadKeys_then. cbn [exec].
    run_answers.
    rewrite (loadKeys_finish_exec _ [] fields keys n); [| |assumption|assumption].
    + cbn [dom suspended events app].
      rewrite clear_out_over, <- app_assoc. reflexivity.
    + cbn [dom]. unfold clear_out. cbn [el_getResult set_keysList].
      now destruct (el_getResult (showStatus ("✅ " ++ msg) true (dom w))).
Qed.

Lemma mutation_then_refresh_witness :
  ok (mkResponse 200) = true /\
  answers [Responded (mkResponse 200); Responded (mkResponse 200);
           Body (JObj [("keys", JArr (map JStr ["alpha"])); ("count", JNum 1)])]
          (exec setKey world0)
  = Some (mkWorld
            (set_statusBox (mkStatusBox "✅ Keys loaded (1)" "green")
               (set_keysList [li_of "alpha"] page0))
            []
            [Requested (setKey_request " alpha " "1" "  ");
             Requested (GET "/keys")]).
Proof.
  split; [reflexivity|].
  exact (proj1 (mutation_then_refresh world0 [mkLi "stale" (JStr "stale")]
                  " alpha " "1" "  " "alpha" (mkResponse 200) (mkResponse 200)
                  [("keys", JArr (map JStr ["alpha"])); ("count", JNum 1)]
                  ["alpha"] 1%Z
                  eq_refl eq_refl eq_refl eq_refl eq_refl eq_refl eq_refl eq_refl)).
Defined.

(** ** [getKey]: success, and what it leaves alone *)

Lemma el_keysList_set_getResult (text : string) (d : DOM) :
  el_keysList (set_getResult text d) = el_keysList d.
Proof. reflexivity. Qed.

(** X7.  On a successful response whose decoded body has only numbers that
    a double holds exactly, [getKey] writes that body, pretty-printed with
    two spaces of indentation, to the result area and reports
    [✅ Key fetched successfully].  Whatever the answer is, a lookup calls
    [fetch] exactly once, with its own [/get/] text; it never calls
    [loadKeys], leaves nothing parked and leaves the key list as it was. *)
Theorem getKey_success_and_frame
        (w : World) (field out : string) :
  el_getKey (dom w) = Some field ->
  el_getResult (dom w) = Some out ->
  let lookup_only (inps : list Input) (errors : list Event) : Prop :=
    exists wf,
      answers inps (exec getKey w) = Some wf
      /\ el_keysList (dom wf) = el_keysList (dom w)
      /\ suspended wf = suspended w
      /\ events wf
         = (events w ++ Requested (getKey_request field) :: errors)%list in
  (forall (res : Response) (data : json),
      ok res = true ->
      numbers_safe data = true ->
      answers [Responded res; Body data] (exec getKey w)
      = Some (mkWorld
                (showStatus "✅ Key fetched successfully" true
                   (set_getResult (stringify2 data) (dom w)))
                (suspended w)
                (events w ++ [Requested (getKey_request field)])))
  /\ (forall (res : Response) (data : json),
         lookup_only [Responded res; Body data] [])
  /\ (forall res : Response,
         lookup_only [Responded res; Unparsable] [Uncaught SyntaxError])
  /\ lookup_only [Failed] [Uncaught NetworkError].
Proof.
  intros Hfield Hout. cbn zeta. split; [|split; [|split]].
  - intros res data Hok _. exact (getKey_ok w field out Hfield Hout res data Hok).
  - intros res data. destruct (ok res) eqn:Hok.
    + eexists. split; [exact (getKey_ok w field out Hfield Hout res data Hok)|].
      cbn [dom suspended events]. split; [|split; reflexivity].
      now rewrite el_keysList_showStatus.
    + eexists. split; [exact (getKey_not_ok w field out Hfield Hout res data Hok)|].
      cbn [dom suspended events]. split; [|split; reflexivity].
      now rewrite el_keysList_showStatus.
  - intros res. eexists. split; [exact (getKey_unparsable w field Hfield res)|].
    cbn [dom suspended events]. repeat split.
  - eexists. split; [exact (getKey_network_failure w field Hfield)|].
    cbn [dom suspended events]. repeat split.
Qed.

Lemma getKey_success_and_frame_witness :
  ok (mkResponse 200) = true /\
  numbers_safe (JObj [("key", JStr "alpha"); ("value", JStr "1");
                      ("ttl", JNum 60)]) = true /\
  option_map (fun wf => (el_getResult (dom wf), el_statusBox (dom wf)))
    (answers [Responded (mkResponse 200);
              Body (JObj [("key", JStr "alpha"); ("value", JStr "1");
                          ("ttl", JNum 60)])]
             (exec getKey world0))
  = Some (Some ("{" ++ newline
                ++ "  " ++ dq ++ "key" ++ dq ++ ": " ++ dq ++ "alpha" ++ dq ++ ","
                ++ newline
                ++ "  " ++ dq ++ "value" ++ dq ++ ": " ++ dq ++ "1" ++ dq ++ ","
                ++ newline
                ++ "  " ++ dq ++ "ttl" ++ dq ++ ": 60" ++ newline ++ "}"),
          Some (mkStatusBox "✅ Key fetched successfully" "green")).
Proof.
  split; [reflexivity|]. split; [reflexivity|].
  exact (f_equal (option_map (fun wf => (el_getResult (dom wf), el_statusBox (dom wf))))
           (proj1 (getKey_success_and_frame world0 "alpha" "old result"
                     eq_refl eq_refl)
              (mkResponse 200)
              (JObj [("key", JStr "alpha"); ("value", JStr "1"); ("ttl", JNum 60)])
              eq_refl eq_refl)).
Defined.

(** X8.  On a page that has the lookup field but no result area, [getKey]
    still sends its request; once the body is decoded it throws a
    [TypeError] where it would write the result, for a successful response
    as for a failure: nothing is shown and no status is reported. *)
Theorem getKey_without_result_area
        (w : World) (field : string) (res : Response) (data : json) :
  el_getKey (dom w) = Some field ->
  el_getResult (dom w) = None ->
  answers [Responded res; Body data] (exec getKey w)
  = Some (raised TypeError (getKey_request field) w).
Proof.
  intros Hfield Hout. unfold getKey, raised. cbn [exec]. rewrite Hfield.
  cbn [valueTrim exec]. run_answers.
  destruct (ok res); unfold out_innerText; cbn [exec dom]; rewrite Hout;
    cbn [exec dom suspended events]; now rewrite <- app_assoc.
Qed.

Lemma getKey_without_result_area_witness :
  answers [Responded (mkResponse 200); Body (JObj [("key", JStr "k")])]
          (exec getKey
             (mkWorld (mkDOM (Some (mkStatusBox "ready" "green")) None None None
                             (Some " k ") None None None None) [] []))
  = Some (mkWorld (mkDOM (Some (mkStatusBox "ready" "green")) None None None
                         (Some " k ") None None None None) []
                  [Requested (GET "/get/k"); Uncaught TypeError]).
Proof.
  exact (getKey_without_result_area
           (mkWorld (mkDOM (Some (mkStatusBox "ready" "green")) None None None
                           (Some " k ") None None None None) [] [])
           " k " (mkResponse 200) (JObj [("key", JStr "k")]) eq_refl eq_refl).
Defined.

(** ** [loadKeys]: refreshes that fail, and keys of any kind *)

Ltac run_loadKeys :=
  cbn [answers];
  repeat (answer_last_step; try unfold loadKeys_then;
          cbn [exec eval answers dom suspended events]).

(** X9.  The list is emptied before the keys are asked for, so a refresh
    that fails leaves it empty, not as it was: when the request fails, when
    the body is not JSON, and when the decoded body has no array under
    [keys] (it is [null], it has no such field, or the field is something
    else).  In each case [loadKeys] throws and the status line is not
    written. *)
Theorem failed_refresh_leaves_list_empty (w : World) (items : list Li) :
  el_keysList (dom w) = Some items ->
  let emptied (e : exn) : option World :=
    Some (mkWorld (set_keysList [] (dom w)) (suspended w)
                  (events w ++ [Requested (GET "/keys"); Uncaught e])) in
  answers [Failed] (exec loadKeys w) = emptied NetworkError
  /\ (forall res : Response,
         answers [Responded res; Unparsable] (exec loadKeys w)
         = emptied SyntaxError)
  /\ (forall (res : Response) (data : json),
         match get_prop "keys" data with
         | Ok (Some (JArr _)) => False
         | _ => True
         end ->
         answers [Responded res; Body data] (exec loadKeys w)
         = emptied TypeError)
  /\ el_statusBox (set_keysList [] (dom w)) = el_statusBox (dom w).
Proof.
  intros Hitems. cbn zeta. rewrite (loadKeys_exec w items Hitems).
  split; [|split; [|split]].
  - run_loadKeys. now rewrite <- app_assoc.
  - intros res. run_loadKeys. now rewrite <- app_assoc.
  - intros res data Hbad. run_loadKeys. unfold loadKeys_finish.
    destruct data as [|b|z|s|l|fields];
      cbn [get_prop eval exec dom suspended events] in *;
      try (now rewrite <- app_assoc).
    destruct (lookup "keys" fields) as [[|b|z|s|l|f]|];
      cbn [exec dom suspended events]; try (now rewrite <- app_assoc).
    now elim Hbad.
  - reflexivity.
Qed.

Lemma failed_refresh_leaves_list_empty_witness :
  el_keysList page0 = Some [mkLi "stale" (JStr "stale")] /\
  answers [Responded (mkResponse 500); Body (JObj [("detail", JStr "boom")])]
          (exec loadKeys world0)
  = Some (mkWorld (set_keysList [] page0) []
                  [Requested (GET "/keys"); Uncaught TypeError]).
Proof.
  split; [reflexivity|].
  exact (proj1 (proj2 (proj2
           (failed_refresh_leaves_list_empty world0
              [mkLi "stale" (JStr "stale")] eq_refl)))
           (mkResponse 500) (JObj [("detail", JStr "boom")]) I).
Defined.

(** The loop over keys of any kind appends one entry per key, showing the
    text the key converts to. *)
Lemma forEach_key_entries (keys : list json) (texts : list string) (k : Async) :
  Forall2 (fun key t => toDOMString key = Ok t) keys texts ->
  forall (W : World) (cur : list Li),
    el_keysList (dom W) = Some cur ->
    exec (forEach_key keys k) W
    = exec k (mkWorld (set_keysList (cur ++ entries texts keys) (dom W))
                      (suspended W) (events W)).
Proof.
  induction 1 as [|key t keys texts Ht _ IH]; intros W cur Hcur.
  - cbn [forEach_key entries combine map]. rewrite app_nil_r.
    rewrite (set_keysList_same _ _ Hcur). now destruct W.
  - cbn [forEach_key]. rewrite Ht. cbn [eval exec].
    rewrite (IH _ (cur ++ [mkLi t key])%list).
    + cbn [dom suspended events]. unfold appendChild. rewrite Hcur.
      unfold entries. cbn [combine map fst snd]. rewrite <- app_assoc. reflexivity.
    + cbn [dom]. unfold appendChild. rewrite Hcur. reflexivity.
Qed.

(** The loop stops at the first key that cannot be converted to text. *)
Lemma forEach_key_stops (good : list json) (texts : list string)
      (bad : json) (rest : list json) (e : exn) (k : Async) :
  Forall2 (fun key t => toDOMString key = Ok t) good texts ->
  toDOMString bad = Throw e ->
  forall (W : World) (cur : list Li),
    el_keysList (dom W) = Some cur ->
    exec (forEach_key (good ++ bad :: rest) k) W
    = mkWorld (set_keysList (cur ++ entries texts good) (dom W))
              (suspended W) (events W ++ [Uncaught e]).
Proof.
  intros Hgood Hbad. induction Hgood as [|key t good texts Ht _ IH]; intros W cur Hcur.
  - cbn [app forEach_key]. rewrite Hbad. cbn [eval exec entries combine map].
    rewrite app_nil_r. now rewrite (set_keysList_same _ _ Hcur).
  - cbn [app forEach_key]. rewrite Ht. cbn [eval exec].
    rewrite (IH _ (cur ++ [mkLi t key])%list).
    + cbn [dom suspended events]. unfold appendChild. rewrite Hcur.
      unfold entries. cbn [combine map fst snd]. rewrite <- app_assoc. reflexivity.
    + cbn [dom]. unfold appendChild. rewrite Hcur. reflexivity.
Qed.

(** X10.  [loadKeys] takes the keys as they come, of any JSON kind: each
    entry shows the text its key converts to (a string as it is, a number
    in decimal, [null] as the empty text) and keeps the key itself for its
    click handler.  The count in the status is whatever [data.count]
    converts to, [undefined] when the body has none; it is not compared
    with the number of keys.  When a key cannot be converted, the loop
    stops there: the entries before it stay, and no status is written. *)
Theorem loadKeys_keys_of_any_kind
        (w : World) (items : list Li) (res : Response)
        (fields : list (string * json)) :
  el_keysList (dom w) = Some items ->
  (forall (keys : list json) (texts : list string) (n : string),
      lookup "keys" fields = Some (JArr keys) ->
      Forall2 (fun key t => toDOMString key = Ok t) keys texts ->
      toString_value (lookup "count" fields) = Ok n ->
      answers [Responded res; Body (JObj fields)] (exec loadKeys w)
      = Some (mkWorld
                (showStatus ("✅ Keys loaded (" ++ n ++ ")") true
                   (set_keysList (entries texts keys) (dom w)))
                (suspended w)
                (events w ++ [Requested (GET "/keys")])))
  /\ (forall (good : list json) (texts : list string) (bad : json)
             (rest : list json) (e : exn),
         lookup "keys" fields = Some (JArr (good ++ bad :: rest)) ->
         Forall2 (fun key t => toDOMString key = Ok t) good texts ->
         toDOMString bad = Throw e ->
         answers [Responded res; Body (JObj fields)] (exec loadKeys w)
         = Some (mkWorld (set_keysList (entries texts good) (dom w))
                         (suspended w)
                         (events w ++ [Requested (GET "/keys"); Uncaught e]))).
Proof.
  intros Hitems. rewrite (loadKeys_exec w items Hitems). split.
  - intros keys texts n Hkeys Htexts Hn.
    run_loadKeys.
    unfold loadKeys_finish. cbn [get_prop eval]. rewrite Hkeys.
    rewrite (forEach_key_entries keys texts _ Htexts _ []) by reflexivity.
    cbn [dom suspended events app eval]. rewrite Hn.
    cbn [eval exec dom suspended events]. reflexivity.
  - intros good texts bad rest e Hkeys Hgood Hbad.
    run_loadKeys.
    unfold loadKeys_finish. cbn [get_prop eval]. rewrite Hkeys.
    rewrite (forEach_key_stops good texts bad rest e _ Hgood Hbad _ []) by reflexivity.
    cbn [dom suspended events app]. now rewrite <- app_assoc.
Qed.

Lemma loadKeys_keys_of_any_kind_witness :
  el_keysList page0 = Some [mkLi "stale" (JStr "stale")] /\
  answers [Responded (mkResponse 200);
           Body (JObj [("keys", JArr [JNum 5; JNull; JStr "a"])])]
          (exec loadKeys world0)
  = Some (mkWorld
            (set_statusBox (mkStatusBox "✅ Keys loaded (undefined)" "green")
               (set_keysList [mkLi "5" (JNum 5); mkLi EmptyString JNull;
                              mkLi "a" (JStr "a")] page0))
            [] [Requested (GET "/keys")]).
Proof.
  split; [reflexivity|].
  refine (proj1 (loadKeys_keys_of_any_kind world0 [mkLi "stale" (JStr "stale")]
                   (mkResponse 200) [("keys", JArr [JNum 5; JNull; JStr "a"])]
                   eq_refl)
            [JNum 5; JNull; JStr "a"] ["5"; EmptyString; "a"] "undefined"
            eq_refl _ eq_refl).
  repeat constructor.
Defined.

(** ** Refreshes, one after the other and in flight together *)

(** X11.  Refreshing is idempotent when the refreshes follow each other:
    once the refresh that [window.onload] starts has been answered, a
    second refresh that gets the same answer shows the same page, with one
    entry per key and nothing left parked. *)
Theorem refresh_twice_same_page
        (w : World) (items : list Li) (res1 res2 : Response)
        (fields : list (string * json)) (keys : list string) (n : Z) :
  el_keysList (dom w) = Some items ->
  lookup "keys" fields = Some (JArr (map JStr keys)) ->
  lookup "count" fields = Some (JNum n) ->
  exists w1 w2,
    answers [Responded res1; Body (JObj fields)] (exec onload w) = Some w1
    /\ answers [Responded res2; Body (JObj fields)] (exec loadKeys w1) = Some w2
    /\ el_keysList (dom w1) = Some (map li_of keys)
    /\ dom w2 = dom w1
    /\ suspended w2 = suspended w1
    /\ suspended w1 = suspended w.
Proof.
  intros Hitems Hkeys Hcount.
  pose proof (loadKeys_rebuild w items Hitems res1 fields keys n Hkeys Hcount) as H1.
  eexists. eexists. split; [exact H1|].
  assert (Hl1 : el_keysList
                  (showStatus ("✅ Keys loaded (" ++ string_of_Z n ++ ")") true
                     (set_keysList (map li_of keys) (dom w)))
                = Some (map li_of keys)).
  { now rewrite el_keysList_showStatus. }
  split.
  { refine (loadKeys_rebuild _ (map li_of keys) _ res2 fields keys n Hkeys Hcount).
    exact Hl1. }
  cbn [dom suspended events]. split; [exact Hl1|].
  split; [|split; reflexivity].
  now rewrite showStatus_over_keysList, set_keysList_over.
Qed.

Lemma refresh_twice_same_page_witness :
  exists w1 w2,
    answers [Responded (mkResponse 200);
             Body (JObj [("keys", JArr (map JStr ["alpha"])); ("count", JNum 1)])]
            (exec onload world0) = Some w1
    /\ answers [Responded (mkResponse 200);
                Body (JObj [("keys", JArr (map JStr ["alpha"])); ("count", JNum 1)])]
               (exec loadKeys w1) = Some w2
    /\ el_keysList (dom w1) = Some [li_of "alpha"]
    /\ dom w2 = dom w1.
Proof.
  destruct (refresh_twice_same_page world0 [mkLi "stale" (JStr "stale")]
              (mkResponse 200) (mkResponse 200)
              [("keys", JArr (map JStr ["alpha"])); ("count", JNum 1)]
              ["alpha"] 1%Z eq_refl eq_refl eq_refl)
    as [w1 [w2 [H1 [H2 [Hl [Hd _]]]]]].
  exists w1, w2. split; [exact H1|]. split; [exact H2|]. split; [exact Hl|exact Hd].
Defined.

Lemma deliver_at_index (w : World) (pre post : list Suspended) (s : Suspended)
      (i : nat) (inp : Input) (t : Async) :
  suspended w = (pre ++ s :: post)%list ->
  i = List.length pre ->
  resume s inp = Some t ->
  deliver i inp w = Some (exec t (mkWorld (dom w) (pre ++ post) (events w))).
Proof. intros Hs -> Hr. now apply deliver_at with (s := s). Qed.

(** X12.  Two refreshes in flight together do not replace each other.  Each
    empties the list when it is called and appends when its body is
    decoded, so once both are answered the list holds the keys of the
    refresh answered first followed by the keys of the one answered second
    (with the same answer: every key twice), and the status reads the count
    of the one answered last. *)
Theorem overlapping_refreshes_append
        (w : World) (items : list Li) (res1 res2 : Response)
        (fields1 fields2 : list (string * json))
        (keys1 keys2 : list string) (n1 n2 : Z) :
  el_keysList (dom w) = Some items ->
  lookup "keys" fields1 = Some (JArr (map JStr keys1)) ->
  lookup "count" fields1 = Some (JNum n1) ->
  lookup "keys" fields2 = Some (JArr (map JStr keys2)) ->
  lookup "count" fields2 = Some (JNum n2) ->
  deliveries
    [(List.length (suspended w), Responded res1);
     (S (List.length (suspended w)), Body (JObj fields1));
     (List.length (suspended w), Responded res2);
     (List.length (suspended w), Body (JObj fields2))]
    (exec loadKeys (exec loadKeys w))
  = Some (mkWorld
            (showStatus ("✅ Keys loaded (" ++ string_of_Z n2 ++ ")") true
               (set_keysList (map li_of keys1 ++ map li_of keys2) (dom w)))
            (suspended w)
            (events w ++ [Requested (GET "/keys"); Requested (GET "/keys")])).
Proof.
  intros Hitems Hk1 Hc1 Hk2 Hc2.
  rewrite (loadKeys_exec w items Hitems).
  rewrite (loadKeys_exec _ []) by reflexivity.
  cbn [dom suspended events deliveries].
  (* the first refresh gets its response *)
  rewrite (deliver_at_index _ (suspended w)
             [OnResponse (GET "/keys") loadKeys_then]
             (OnResponse (GET "/keys") loadKeys_then)
             _ _ (loadKeys_then res1));
    [ | cbn [suspended]; now rewrite <- app_assoc | reflexivity | reflexivity ].
  unfold loadKeys_then at 1. cbn [exec dom suspended events].
  (* and its body *)
  rewrite (deliver_at_index _ (suspended w ++ [OnResponse (GET "/keys") loadKeys_then])
             [] (OnBody res1 loadKeys_finish)
             _ _ (loadKeys_finish (JObj fields1)));
    [ | reflexivity | rewrite length_app; cbn [List.length]; lia | reflexivity ].
  rewrite (loadKeys_finish_exec _ [] fields1 keys1 n1) by reflexivity || assumption.
  cbn [dom suspended events app]. rewrite app_nil_r.
  (* the second refresh gets its response *)
  rewrite (deliver_at_index _ (suspended w) []
             (OnResponse (GET "/keys") loadKeys_then)
             _ _ (loadKeys_then res2));
    [ | reflexivity | reflexivity | reflexivity ].
  unfold loadKeys_then at 1. cbn [exec dom suspended events]. rewrite app_nil_r.
  (* and its body *)
  rewrite (deliver_at_index _ (suspended w) [] (OnBody res2 loadKeys_finish)
             _ _ (loadKeys_finish (JObj fields2)));
    [ | reflexivity | reflexivity | reflexivity ].
  rewrite (loadKeys_finish_exec _ (map li_of keys1) fields2 keys2 n2);
    [ | cbn [dom]; now rewrite el_keysList_showStatus | assumption | assumption ].
  cbn [dom suspended events]. rewrite app_nil_r.
  rewrite showStatus_over_keysList, !set_keysList_over, <- app_assoc.
  reflexivity.
Qed.

Lemma overlapping_refreshes_append_witness :
  deliveries
    [(0, Responded (mkResponse 200));
     (1, Body (JObj [("keys", JArr (map JStr ["alpha"])); ("count", JNum 1)]));
     (0, Responded (mkResponse 200));
     (0, Body (JObj [("keys", JArr (map JStr ["alpha"])); ("count", JNum 1)]))]
    (exec loadKeys (exec loadKeys world0))
  = Some (mkWorld
            (set_statusBox (mkStatusBox "✅ Keys loaded (1)" "green")
               (set_keysList [li_of "alpha"; li_of "alpha"] page0))
            []
            [Requested (GET "/keys"); Requested (GET "/keys")]).
Proof.
  exact (overlapping_refreshes_append world0 [mkLi "stale" (JStr "stale")]
           (mkResponse 200) (mkResponse 200)
           [("keys", JArr (map JStr ["alpha"])); ("count", JNum 1)]
           [("keys", JArr (map JStr ["alpha"])); ("count", JNum 1)]
           ["alpha"] ["alpha"] 1%Z 1%Z eq_refl eq_refl eq_refl eq_refl eq_refl).
Defined.

(** ** [loadStats] *)

(** X13.  [loadStats] never reads [res.ok]: whatever the status of the
    response, the decoded body, an error body included, is written
    pretty-printed to the statistics box.  It never writes the status line.
    When the request fails or the body is not JSON it throws and the box
    keeps its text; on a page without the box it throws once the body is
    decoded. *)
Theorem loadStats_outcome (w : World) :
  (forall (box : string) (res : Response) (data : json),
      el_statsBox (dom w) = Some box ->
      answers [Responded res; Body data] (exec loadStats w)
      = Some (mkWorld (set_statsBox (stringify2 data) (dom w)) (suspended w)
                      (events w ++ [Requested (GET "/stats")]))
      /\ el_statusBox (set_statsBox (stringify2 data) (dom w))
         = el_statusBox (dom w))
  /\ (forall (res : Response) (data : json),
         el_statsBox (dom w) = None ->
         answers [Responded res; Body data] (exec loadStats w)
         = Some (raised TypeError (GET "/stats") w))
  /\ (forall res : Response,
         answers [Responded res; Unparsable] (exec loadStats w)
         = Some (raised SyntaxError (GET "/stats") w))
  /\ answers [Failed] (exec loadStats w)
     = Some (raised NetworkError (GET "/stats") w).
Proof.
  split; [|split; [|split]].
  - intros box res data Hbox. split; [|reflexivity].
    exact (loadStats_shown w res data box Hbox).
  - intros res data Hbox. unfold loadStats, raised. cbn [exec]. run_answers.
    rewrite Hbox. cbn [exec dom suspended events]. now rewrite <- app_assoc.
  - intros res. unfold loadStats, raised. cbn [exec]. run_answers.
    now rewrite <- app_assoc.
  - unfold loadStats, raised. cbn [exec]. run_answers. now rewrite <- app_assoc.
Qed.

Lemma loadStats_outcome_witness :
  el_statsBox page0 = Some EmptyString /\
  answers [Responded (mkResponse 503); Body (JObj [("detail", JStr "down")])]
          (exec loadStats world0)
  = Some (mkWorld
            (set_statsBox ("{" ++ newline ++ "  " ++ dq ++ "detail" ++ dq ++ ": "
                               ++ dq ++ "down" ++ dq ++ newline ++ "}") page0)
            [] [Requested (GET "/stats")]).
Proof.
  split; [reflexivity|].
  exact (proj1 (proj1 (loadStats_outcome world0) EmptyString (mkResponse 503)
                  (JObj [("detail", JStr "down")]) eq_refl)).
Defined.

(** ** [clearAll]: a body without message, a page without result area *)

(** X14.  A successful response to [clearAll] whose body is an object with
    no [message] is reported as [✅ undefined]; the refresh and the clearing
    of the lookup result go ahead all the same.  The result area is
    optional here: on a page without it [clearAll] completes without
    throwing (whereas [getKey] throws).  On a page with the key list the
    state after the answer is: status written, list emptied, result area
    emptied if there is one, one refresh in flight. *)
Theorem clearAll_success_edges
        (w : World) (items : list Li) (res : Response)
        (fields : list (string * json)) (message : Json.value) (msg : string) :
  el_keysList (dom w) = Some items ->
  ok res = true ->
  lookup "message" fields = message ->
  toString_value message = Ok msg ->
  answers [Responded res; Body (JObj fields)] (exec clearAll w)
  = Some (mkWorld
            (clear_out (set_keysList [] (showStatus ("✅ " ++ msg) true (dom w))))
            (suspended w ++ [OnResponse (GET "/keys") loadKeys_then])
            (events w ++ [Requested (DELETE "/clear"); Requested (GET "/keys")]))
  /\ (message = None -> msg = "undefined")
  /\ (el_getResult (dom w) = None ->
      clear_out (set_keysList [] (showStatus ("✅ " ++ msg) true (dom w)))
      = set_keysList [] (showStatus ("✅ " ++ msg) true (dom w))).
Proof.
  intros Hitems Hok Hmessage Hmsg. split; [|split].
  - rewrite (clearAll_ok w res (JObj fields) message msg Hok);
      [ | cbn [get_prop]; now rewrite Hmessage | exact Hmsg ].
    rewrite (loadKeys_exec _ items)
      by (cbn [dom]; now rewrite el_keysList_showStatus).
    cbn [exec dom suspended events]. now rewrite <- app_assoc.
  - intros ->. cbn in Hmsg. now injection Hmsg.
  - intros Hout. unfold clear_out. cbn [el_getResult set_keysList].
    now rewrite el_getResult_showStatus, Hout.
Qed.

Lemma clearAll_success_edges_witness :
  ok (mkResponse 200) = true /\
  answers [Responded (mkResponse 200); Body (JObj [("status", JStr "ok")])]
          (exec clearAll world0)
  = Some (mkWorld
            (set_getResult EmptyString
               (set_keysList []
                  (set_statusBox (mkStatusBox "✅ undefined" "green") page0)))
            [OnResponse (GET "/keys") loadKeys_then]
            [Requested (DELETE "/clear"); Requested (GET "/keys")]).
Proof.
  split; [reflexivity|].
  exact (proj1 (clearAll_success_edges world0 [mkLi "stale" (JStr "stale")]
                  (mkResponse 200) [("status", JStr "ok")] None "undefined"
                  eq_refl eq_refl eq_refl eq_refl)).
Defined.

(** ** Two operations in flight *)

Ltac deliver_to_first :=
  rewrite <- ?app_assoc; cbn [app];
  erewrite deliver_at_index;
  [ | cbn [suspended]; reflexivity
    | reflexivity
    | cbn [resume]; reflexivity ];
  cbn [exec eval dom suspended events deliveries].

Ltac deliver_to_second :=
  erewrite deliver_at_index;
  [ | cbn [suspended]; reflexivity
    | rewrite !length_app; cbn [List.length]; lia
    | cbn [resume]; reflexivity ];
  cbn [exec eval dom suspended events deliveries].

Lemma showStatus_over_getResult (m1 m2 : string) (b1 b2 : bool)
      (text : string) (d : DOM) :
  showStatus m2 b2 (set_getResult text (showStatus m1 b1 d))
  = showStatus m2 b2 (set_getResult text d).
Proof. unfold showStatus. now destruct (el_statusBox d) eqn:E; cbn; rewrite ?E. Qed.

Lemma set_getResult_showStatus (m : string) (b : bool) (text : string) (d : DOM) :
  set_getResult text (showStatus m b d) = showStatus m b (set_getResult text d).
Proof. unfold showStatus. now destruct (el_statusBox d) eqn:E; cbn; rewrite ?E. Qed.

(** X15.  Nothing orders two operations in flight: with a [deleteKey] and
    then a [getKey] started, the status line ends up showing the outcome of
    the one answered last, whichever was started first.  Here the deletion
    fails and the lookup succeeds: answered in the order they were started,
    the page keeps the lookup's success and the failure of the deletion is
    gone; answered the other way round, it keeps the failure.  The lookup
    result is written in both cases. *)
Theorem status_shows_last_answer
        (w : World) (field out delField : string)
        (res_g res_d : Response) (data_g data_d : json)
        (detail : Json.value) (msg : string) :
  el_getKey (dom w) = Some field ->
  el_getResult (dom w) = Some out ->
  el_delKey (dom w) = Some delField ->
  ok res_g = true ->
  ok res_d = false ->
  get_prop "detail" data_d = Ok detail ->
  toString_value (or_else detail "Error") = Ok msg ->
  let n := List.length (suspended w) in
  let sent := (events w ++ [Requested (deleteKey_request delField);
                            Requested (getKey_request field)])%list in
  deliveries [(n, Responded res_d); (S n, Body data_d);
              (n, Responded res_g); (n, Body data_g)]
             (exec getKey (exec deleteKey w))
  = Some (mkWorld
            (showStatus "✅ Key fetched successfully" true
               (set_getResult (stringify2 data_g) (dom w)))
            (suspended w) sent)
  /\ deliveries [(S n, Responded res_g); (S n, Body data_g);
                 (n, Responded res_d); (n, Body data_d)]
                (exec getKey (exec deleteKey w))
     = Some (mkWorld
               (showStatus ("❌ " ++ msg) false
                  (set_getResult (stringify2 data_g) (dom w)))
               (suspended w) sent).
Proof.
  intros Hfield Hout Hdel Hokg Hokd Hdetail Hmsg. cbn zeta.
  unfold deleteKey, getKey, deleteKey_request, getKey_request. cbn [exec].
  rewrite Hdel. cbn [valueTrim exec dom suspended events].
  rewrite Hfield. cbn [valueTrim exec dom suspended events deliveries].
  split.
  - deliver_to_first. deliver_to_second.
    rewrite Hokd, Hdetail. cbn [eval]. rewrite Hmsg.
    cbn [eval exec dom suspended events]. rewrite app_nil_r.
    deliver_to_first. deliver_to_first.
    rewrite Hokg. unfold out_innerText. cbn [exec dom suspended events].
    rewrite el_getResult_showStatus, Hout.
    cbn [exec dom suspended events].
    rewrite app_nil_r, showStatus_over_getResult. reflexivity.
  - deliver_to_second. rewrite app_nil_r. deliver_to_second.
    rewrite Hokg. unfold out_innerText. cbn [exec dom suspended events].
    rewrite Hout. cbn [exec dom suspended events]. rewrite app_nil_r.
    deliver_to_first. deliver_to_first.
    rewrite Hokd, Hdetail. cbn [eval]. rewrite Hmsg.
    cbn [eval exec dom suspended events].
    rewrite app_nil_r, showStatus_overwrites. reflexivity.
Qed.

Lemma status_shows_last_answer_witness :
  ok (mkResponse 200) = true /\ ok (mkResponse 404) = false /\
  option_map (fun wf => el_statusBox (dom wf))
    (deliveries [(0, Responded (mkResponse 404));
                 (1, Body (JObj [("detail", JStr "Key not found")]));
                 (0, Responded (mkResponse 200));
                 (0, Body (JObj [("key", JStr "alpha")]))]
                (exec getKey (exec deleteKey world0)))
  = Some (Some (mkStatusBox "✅ Key fetched successfully" "green"))
  /\ option_map (fun wf => el_statusBox (dom wf))
       (deliveries [(1, Responded (mkResponse 200));
                    (1, Body (JObj [("key", JStr "alpha")]));
                    (0, Responded (mkResponse 404));
                    (0, Body (JObj [("detail", JStr "Key not found")]))]
                   (exec getKey (exec deleteKey world0)))
     = Some (Some (mkStatusBox "❌ Key not found" "red")).
Proof.
  split; [reflexivity|]. split; [reflexivity|].
  destruct (status_shows_last_answer world0 "alpha" "old result" "alpha"
              (mkResponse 200) (mkResponse 404)
              (JObj [("key", JStr "alpha")])
              (JObj [("detail", JStr "Key not found")])
              (Some (JStr "Key not found")) "Key not found"
              eq_refl eq_refl eq_refl eq_refl eq_refl eq_refl eq_refl)
    as [Ha Hb].
  split.
  - exact (f_equal (option_map (fun wf => el_statusBox (dom wf))) Ha).
  - exact (f_equal (option_map (fun wf => el_statusBox (dom wf))) Hb).
Defined.
